(** * Art Institute of Chicago MCP server: the translation pipeline of server.py

    A shallow embedding of [src/server.py]: the argument normalisation done at
    the head of every branch of [call_tool], the adapter [make_api_request],
    the four renderers [format_*_response], the inline renderer of
    [search_all], the exception handlers that close [call_tool], the tool
    declarations of [list_tools], and the connection test of
    [src/test_server.py].

    Conventions of the embedding.
    - A Python value that can come out of a JSON document is a [pyval].
      JSON numbers are modelled as integers (the fields the code reads are
      identifiers, counts and page numbers); floats are outside the model.
    - A Python [str] is written as a Rocq [string], one [ascii] per character.
      The code only measures, slices, compares and concatenates strings.
    - A [dict] is an association list; a lookup finds the first binding of the
      key.  Dict literals of the source have distinct keys.
    - A function that can raise returns an [outcome]; the part of [call_tool]
      that awaits the remote service also threads the list of requests that
      were sent, so that "no outbound call" is a statement about that list.
    - The text of a built-in exception ([str(e)]) is the one CPython 3.12
      prints. *)

From Stdlib Require Import ZArith List String Ascii Bool Lia.
From Stdlib Require Import Numbers.DecimalString.
Import ListNotations.

Set Warnings "-register-all".

Open Scope string_scope.
Open Scope Z_scope.

(** ** Python values *)

Inductive pyval : Type :=
| VNone
| VBool (b : bool)
| VInt (z : Z)
| VStr (s : string)
| VList (l : list pyval)
| VDict (d : list (string * pyval)).

Definition dict : Type := list (string * pyval).

(** Exceptions.  [AICAPIError] is the class defined in server.py; the others
    are the built-in exceptions the operations used by the code can raise.
    Each carries what [str(e)] returns. *)
Inductive pyexc : Type :=
| AICAPIError (msg : string)
| TypeError (msg : string)
| AttributeError (msg : string)
| KeyError (msg : string).

Definition exc_str (e : pyexc) : string :=
  match e with
  | AICAPIError m | TypeError m | AttributeError m | KeyError m => m
  end.

Inductive outcome (A : Type) : Type :=
| Return (a : A)
| Raise (e : pyexc).

Arguments Return {A} a.
Arguments Raise {A} e.

Definition bind {A B : Type} (m : outcome A) (k : A -> outcome B) : outcome B :=
  match m with
  | Return a => k a
  | Raise e => Raise e
  end.

Declare Scope py_scope.
Delimit Scope py_scope with py.
Notation "x <- m ;; k" := (bind m (fun x => k))
  (at level 61, m at next level, right associativity) : py_scope.
Open Scope py_scope.

(** A [for] loop that appends one rendered item per element and stops at the
    first exception. *)
Fixpoint for_each {A B : Type} (f : A -> outcome B) (xs : list A)
  : outcome (list B) :=
  match xs with
  | [] => Return []
  | x :: xs' =>
      y <- f x ;;
      ys <- for_each f xs' ;;
      Return (y :: ys)
  end.

(** [l.append(x)] *)
Definition list_append {A : Type} (l : list A) (x : A) : list A :=
  (l ++ [x])%list.

(** ** Strings *)

Definition nl : string := String (ascii_of_nat 10) EmptyString.

Definition Z_to_string (z : Z) : string :=
  NilEmpty.string_of_int (Z.to_int z).

(** [sep.join(parts)] *)
Fixpoint join (sep : string) (parts : list string) : string :=
  match parts with
  | [] => ""
  | [p] => p
  | p :: rest => p ++ sep ++ join sep rest
  end.

(** [s.lstrip('/')] *)
Fixpoint lstrip_slash (s : string) : string :=
  match s with
  | String c s' => if Ascii.eqb c "/"%char then lstrip_slash s' else s
  | EmptyString => s
  end.

(** [s[:n]] for a non-negative constant [n]. *)
Definition str_prefix (n : nat) (s : string) : string := substring 0 n s.

(** [sub in s] as a proposition: [s] contains [sub]. *)
Definition contains (s sub : string) : Prop :=
  exists pre post, s = pre ++ sub ++ post.

(** ** [repr] and [str] of a value *)

Definition hex_digit (n : nat) : ascii :=
  match n with
  | 0 => "0" | 1 => "1" | 2 => "2" | 3 => "3" | 4 => "4" | 5 => "5"
  | 6 => "6" | 7 => "7" | 8 => "8" | 9 => "9" | 10 => "a" | 11 => "b"
  | 12 => "c" | 13 => "d" | 14 => "e" | _ => "f"
  end%nat%char.

Definition dquote : ascii := ascii_of_nat 34.
Definition squote : ascii := ascii_of_nat 39.
Definition backslash : ascii := ascii_of_nat 92.

Fixpoint has_char (c : ascii) (s : string) : bool :=
  match s with
  | EmptyString => false
  | String c' s' => Ascii.eqb c c' || has_char c s'
  end.

Definition repr_char (quote c : ascii) : string :=
  let n := nat_of_ascii c in
  if Ascii.eqb c quote || Ascii.eqb c backslash then String backslash (String c "")
  else if Nat.eqb n 9 then String backslash "t"
  else if Nat.eqb n 10 then String backslash "n"
  else if Nat.eqb n 13 then String backslash "r"
  else if Nat.ltb n 32 || (Nat.leb 127 n && Nat.leb n 160) || Nat.eqb n 173
       then String backslash
              (String "x" (String (hex_digit (n / 16)) (String (hex_digit (n mod 16)) "")))
  else String c "".

Definition repr_str (s : string) : string :=
  let quote := if has_char squote s && negb (has_char dquote s)
               then dquote else squote in
  String quote (concat "" (map (repr_char quote) (list_ascii_of_string s)))
    ++ String quote "".

Fixpoint py_repr (v : pyval) : string :=
  match v with
  | VNone => "None"
  | VBool true => "True"
  | VBool false => "False"
  | VInt z => Z_to_string z
  | VStr s => repr_str s
  | VList l => "[" ++ join ", " (map py_repr l) ++ "]"
  | VDict d =>
      "{" ++ join ", " (map (fun '(k, x) => repr_str k ++ ": " ++ py_repr x) d)
          ++ "}"
  end.

(** [str(v)], which is also what an f-string field [{v}] produces. *)
Definition py_str (v : pyval) : string :=
  match v with
  | VStr s => s
  | _ => py_repr v
  end.

Definition type_name (v : pyval) : string :=
  match v with
  | VNone => "NoneType"
  | VBool _ => "bool"
  | VInt _ => "int"
  | VStr _ => "str"
  | VList _ => "list"
  | VDict _ => "dict"
  end.

(** Truth value of a value, as tested by [if v], [not v] and [v or w]. *)
Definition truthy (v : pyval) : bool :=
  match v with
  | VNone => false
  | VBool b => b
  | VInt z => negb (z =? 0)
  | VStr s => negb (String.eqb s "")
  | VList l => match l with [] => false | _ => true end
  | VDict d => match d with [] => false | _ => true end
  end.

(** ** Dictionaries *)

Fixpoint dict_get (k : string) (d : dict) : option pyval :=
  match d with
  | [] => None
  | (k', v) :: d' => if String.eqb k k' then Some v else dict_get k d'
  end.

(** [d.get(k, dflt)] on a dict. *)
Definition get_or (d : dict) (k : string) (dflt : pyval) : pyval :=
  match dict_get k d with Some v => v | None => dflt end.

(** [x.get(k, dflt)] on an arbitrary value: only a dict has the method. *)
Definition py_get (x : pyval) (k : string) (dflt : pyval) : outcome pyval :=
  match x with
  | VDict d => Return (get_or d k dflt)
  | _ => Raise (AttributeError
                  ("'" ++ type_name x ++ "' object has no attribute 'get'"))
  end.

(** [x[k]] for a string key [k]. *)
Definition py_item (x : pyval) (k : string) : outcome pyval :=
  match x with
  | VDict d =>
      match dict_get k d with
      | Some v => Return v
      | None => Raise (KeyError (repr_str k))
      end
  | VList _ =>
      Raise (TypeError "list indices must be integers or slices, not str")
  | VStr _ => Raise (TypeError "string indices must be integers, not 'str'")
  | _ => Raise (TypeError ("'" ++ type_name x ++ "' object is not subscriptable"))
  end.

(** [a or b] *)
Definition py_or (a b : pyval) : pyval := if truthy a then a else b.

Definition len_str (s : string) : Z := Z.of_nat (String.length s).
Definition len {A : Type} (l : list A) : Z := Z.of_nat (List.length l).

(** ** Response Renderer *)

(** The two f-string fields that close every description line:
    [{description[:300]}{'...' if len(description) > 300 else ''}].
    The slice is evaluated first; a string and a list can be sliced and
    measured, nothing else can. *)
Definition description_field (description : pyval) : outcome string :=
  match description with
  | VStr s =>
      Return (str_prefix 300 s ++ (if len_str s >? 300 then "..." else ""))
  | VList l =>
      Return (py_str (VList (firstn 300 l))
                ++ (if len l >? 300 then "..." else ""))
  | VDict _ => Raise (KeyError "slice(None, 300, None)")
  | _ => Raise (TypeError
                  ("'" ++ type_name description ++ "' object is not subscriptable"))
  end.

Definition image_url (image_id : pyval) : string :=
  "https://www.artic.edu/iiif/2/" ++ py_str image_id ++ "/full/843,/0/default.jpg".

Definition web_url (id : pyval) : string :=
  "https://www.artic.edu/artworks/" ++ py_str id.

(** Body of the loop of [format_artwork_response] (server.py 90-120): the
    text appended to [result] for one artwork. *)
Definition artwork_text (artwork : pyval) : outcome string :=
  title <- py_get artwork "title" (VStr "Untitled") ;;
  artist <- py_get artwork "artist_display" (VStr "Unknown artist") ;;
  date <- py_get artwork "date_display" (VStr "Unknown date") ;;
  medium <- py_get artwork "medium_display" (VStr "Unknown medium") ;;
  place <- py_get artwork "place_of_origin" (VStr "Unknown origin") ;;
  short <- py_get artwork "short_description" VNone ;;
  long <- py_get artwork "description" (VStr "No description available") ;;
  let description := py_or short long in
  artwork_id <- py_get artwork "id" (VStr "Unknown") ;;
  shown <- description_field description ;;
  let text := nl ++ "**" ++ py_str title ++ "**" ++ nl
              ++ "ID: " ++ py_str artwork_id ++ nl
              ++ "Artist: " ++ py_str artist ++ nl
              ++ "Date: " ++ py_str date ++ nl
              ++ "Medium: " ++ py_str medium ++ nl
              ++ "Origin: " ++ py_str place ++ nl
              ++ "Description: " ++ shown ++ nl in
  has_image <- py_get artwork "image_id" VNone ;;
  text <- (if truthy has_image
           then image_id <- py_item artwork "image_id" ;;
                Return (text ++ "Image: " ++ image_url image_id ++ nl)
           else Return text) ;;
  has_id <- py_get artwork "id" VNone ;;
  if truthy has_id
  then id <- py_item artwork "id" ;;
       Return (text ++ "View online: " ++ web_url id ++ nl)
  else Return text.

(** [data["data"] if isinstance(data["data"], list) else [data["data"]]] *)
Definition as_list (v : pyval) : list pyval :=
  match v with
  | VList l => l
  | _ => [v]
  end.

Definition is_empty {A : Type} (l : list A) : bool :=
  match l with [] => true | _ => false end.

Definition separator : string := nl ++ "---" ++ nl.

Definition format_artwork_response (data : dict) : outcome string :=
  match dict_get "data" data with
  | None => Return "No artwork data found."
  | Some d =>
      let artworks := as_list d in
      if is_empty artworks then Return "No artworks found."
      else
        result <- for_each artwork_text (firstn 10 artworks) ;;
        result <-
          match dict_get "pagination" data with
          | Some pagination =>
              total <- py_get pagination "total" (VInt 0) ;;
              limit <- py_get pagination "limit" (VInt 0) ;;
              current_page <- py_get pagination "current_page" (VInt 1) ;;
              total_pages <- py_get pagination "total_pages" (VInt 1) ;;
              Return (list_append result
                (nl ++ "Showing " ++ Z_to_string (len artworks) ++ " of "
                    ++ py_str total ++ " total results (Page "
                    ++ py_str current_page ++ "/" ++ py_str total_pages ++ ")"))
          | None => Return result
          end ;;
        Return (join separator result)
  end.

(** Body of the loop of [format_agent_response] (server.py 147-160). *)
Definition agent_text (agent : pyval) : outcome string :=
  title <- py_get agent "title" (VStr "Unknown") ;;
  birth_date <- py_get agent "birth_date" (VStr "Unknown") ;;
  death_date <- py_get agent "death_date" (VStr "Unknown") ;;
  description <- py_get agent "description" (VStr "No description available") ;;
  agent_id <- py_get agent "id" (VStr "Unknown") ;;
  shown <- description_field description ;;
  Return (nl ++ "**" ++ py_str title ++ "**" ++ nl
          ++ "ID: " ++ py_str agent_id ++ nl
          ++ "Birth: " ++ py_str birth_date ++ nl
          ++ "Death: " ++ py_str death_date ++ nl
          ++ "Description: " ++ shown ++ nl).

(** The summary appended by the agent, exhibition and gallery renderers. *)
Definition with_total (data : dict) (count : Z) (result : list string)
  : outcome (list string) :=
  match dict_get "pagination" data with
  | Some pagination =>
      total <- py_get pagination "total" (VInt 0) ;;
      Return (list_append result
        (nl ++ "Showing " ++ Z_to_string count ++ " of "
            ++ py_str total ++ " total results"))
  | None => Return result
  end.

Definition format_agent_response (data : dict) : outcome string :=
  match dict_get "data" data with
  | None => Return "No agent data found."
  | Some d =>
      let agents := as_list d in
      if is_empty agents then Return "No agents found."
      else
        result <- for_each agent_text (firstn 10 agents) ;;
        result <- with_total data (len agents) result ;;
        Return (join separator result)
  end.

(** Body of the loop of [format_exhibition_response] (server.py 182-202). *)
Definition exhibition_text (exhibition : pyval) : outcome string :=
  title <- py_get exhibition "title" (VStr "Untitled Exhibition") ;;
  description <- py_get exhibition "short_description"
                   (VStr "No description available") ;;
  start_date <- py_get exhibition "aic_start_at" (VStr "Unknown") ;;
  end_date <- py_get exhibition "aic_end_at" (VStr "Unknown") ;;
  status <- py_get exhibition "status" (VStr "Unknown") ;;
  gallery <- py_get exhibition "gallery_title" (VStr "Unknown location") ;;
  exhibition_id <- py_get exhibition "id" (VStr "Unknown") ;;
  shown <- description_field description ;;
  let text := nl ++ "**" ++ py_str title ++ "**" ++ nl
              ++ "ID: " ++ py_str exhibition_id ++ nl
              ++ "Status: " ++ py_str status ++ nl
              ++ "Dates: " ++ py_str start_date ++ " to " ++ py_str end_date ++ nl
              ++ "Location: " ++ py_str gallery ++ nl
              ++ "Description: " ++ shown ++ nl in
  has_url <- py_get exhibition "web_url" VNone ;;
  if truthy has_url
  then url <- py_item exhibition "web_url" ;;
       Return (text ++ "More info: " ++ py_str url ++ nl)
  else Return text.

Definition format_exhibition_response (data : dict) : outcome string :=
  match dict_get "data" data with
  | None => Return "No exhibition data found."
  | Some d =>
      let exhibitions := as_list d in
      if is_empty exhibitions then Return "No exhibitions found."
      else
        result <- for_each exhibition_text (firstn 10 exhibitions) ;;
        result <- with_total data (len exhibitions) result ;;
        Return (join separator result)
  end.

(** Body of the loop of [format_gallery_response] (server.py 224-239). *)
Definition gallery_text (gallery : pyval) : outcome string :=
  title <- py_get gallery "title" (VStr "Unknown Gallery") ;;
  number <- py_get gallery "number" (VStr "Unknown") ;;
  floor <- py_get gallery "floor" (VStr "Unknown") ;;
  is_closed <- py_get gallery "is_closed" (VBool false) ;;
  gallery_id <- py_get gallery "id" (VStr "Unknown") ;;
  let status := if truthy is_closed then "Closed" else "Open" in
  Return (nl ++ "**" ++ py_str title ++ "**" ++ nl
          ++ "ID: " ++ py_str gallery_id ++ nl
          ++ "Gallery Number: " ++ py_str number ++ nl
          ++ "Floor: " ++ py_str floor ++ nl
          ++ "Status: " ++ status ++ nl).

Definition format_gallery_response (data : dict) : outcome string :=
  match dict_get "data" data with
  | None => Return "No gallery data found."
  | Some d =>
      let galleries := as_list d in
      if is_empty galleries then Return "No galleries found."
      else
        result <- for_each gallery_text (firstn 20 galleries) ;;
        result <- with_total data (len galleries) result ;;
        Return (join separator result)
  end.

(** Renderer of [search_all], written inline in [call_tool]
    (server.py 561-576). *)
Definition as_index (v : pyval) : outcome Z :=
  match v with
  | VInt z => Return z
  | VBool b => Return (if b then 1 else 0)
  | _ => Raise (TypeError
           "slice indices must be integers or None or have an __index__ method")
  end.

(** [l[:n]]: a negative [n] counts from the end. *)
Definition slice_to {A : Type} (n : Z) (l : list A) : list A :=
  if n <? 0 then firstn (Z.to_nat (len l + n)) l else firstn (Z.to_nat n) l.

(** The items the loop [for item in v[:limit]] visits. *)
Definition sliced_items (v limit : pyval) : outcome (list pyval) :=
  match v with
  | VList l => n <- as_index limit ;; Return (slice_to n l)
  | VStr s =>
      n <- as_index limit ;;
      Return (map (fun c => VStr (String c ""))
                (slice_to n (list_ascii_of_string s)))
  | VDict _ => Raise (KeyError ("slice(None, " ++ py_repr limit ++ ", None)"))
  | _ => Raise (TypeError ("'" ++ type_name v ++ "' object is not subscriptable"))
  end.

Definition mixed_text (item : pyval) : outcome string :=
  api_model <- py_get item "api_model" (VStr "unknown") ;;
  title <- py_get item "title" (VStr "Untitled") ;;
  item_id <- py_get item "id" (VStr "Unknown") ;;
  Return ("**" ++ py_str title ++ "** (Type: " ++ py_str api_model
          ++ ", ID: " ++ py_str item_id ++ ")").

Definition format_mixed_response (data : dict) (limit : pyval) : outcome string :=
  match dict_get "data" data with
  | None => Return "No results found."
  | Some d =>
      if negb (truthy d) then Return "No results found."
      else
        items <- sliced_items d limit ;;
        results <- for_each mixed_text items ;;
        let response_text := join nl results in
        match dict_get "pagination" data with
        | Some pagination =>
            total <- py_get pagination "total" (VInt 0) ;;
            Return (response_text ++ nl ++ nl ++ "Showing "
                    ++ Z_to_string (len results) ++ " of " ++ py_str total
                    ++ " total results")
        | None => Return response_text
        end
  end.

(** ** Remote Client Adapter *)

Definition BASE_URL : string := "https://api.artic.edu/api/v1".
Definition MAX_RESULTS : Z := 100.

(** What [client.get(url, params=params)] is called with. *)
Record request : Type := { url : string; params : option dict }.

(** What the [try] block of [make_api_request] meets: a successful response
    whose body decodes, or one of the three exception classes it catches. *)
Inductive reply : Type :=
| Json (body : dict)
| HTTPStatusError (status_code : Z) (text : string)
| RequestError (msg : string)
| OtherException (msg : string).

(** A computation that may send requests: it extends the list of requests
    sent so far and returns or raises. *)
Definition io (A : Type) : Type := list request -> outcome A * list request.

Definition io_ret {A : Type} (a : A) : io A := fun sent => (Return a, sent).

Definition io_bind {A B : Type} (m : io A) (k : A -> io B) : io B :=
  fun sent =>
    match m sent with
    | (Return a, sent') => k a sent'
    | (Raise e, sent') => (Raise e, sent')
    end.

Definition lift {A : Type} (m : outcome A) : io A := fun sent => (m, sent).

Notation "x <~ m ;; k" := (io_bind m (fun x => k))
  (at level 61, m at next level, right associativity) : py_scope.

Definition is_not_none (v : pyval) : bool :=
  match v with VNone => false | _ => true end.

Definition make_api_request (remote : request -> reply)
    (endpoint : string) (params : option dict) : io dict :=
  fun sent =>
    let url := BASE_URL ++ "/" ++ lstrip_slash endpoint in
    let params :=
      match params with
      | Some ((_ :: _) as p) => Some (filter (fun kv => is_not_none (snd kv)) p)
      | _ => params
      end in
    let rq := {| url := url; params := params |} in
    (match remote rq with
     | Json body => Return body
     | HTTPStatusError status_code text =>
         Raise (AICAPIError ("API request failed: " ++ Z_to_string status_code
                             ++ " - " ++ text))
     | RequestError msg => Raise (AICAPIError ("Failed to connect to API: " ++ msg))
     | OtherException msg => Raise (AICAPIError ("Unexpected error: " ++ msg))
     end, list_append sent rq).

(** ** Query Normalizer and Dispatcher *)

(** [n < y] for an integer [n]. *)
Definition int_lt (n : Z) (y : pyval) : outcome bool :=
  match y with
  | VInt z => Return (n <? z)
  | VBool b => Return (n <? (if b then 1 else 0))
  | _ => Raise (TypeError ("'<' not supported between instances of 'int' and '"
                           ++ type_name y ++ "'"))
  end.

(** [min(v, MAX_RESULTS)]: the second argument replaces the first when it is
    smaller. *)
Definition min_max_results (v : pyval) : outcome pyval :=
  smaller <- int_lt MAX_RESULTS v ;;
  Return (if smaller then VInt MAX_RESULTS else v).

Record TextContent : Type := { type : string; text : string }.

Definition text_reply (s : string) : list TextContent :=
  [{| type := "text"; text := s |}].

(** The [try] block of [call_tool] (server.py 455-584). *)
Definition call_tool_body (remote : request -> reply)
    (name : string) (arguments : dict) : io (list TextContent) :=
  if String.eqb name "search_artworks" then
    let query := get_or arguments "query" VNone in
    limit <~ lift (min_max_results (get_or arguments "limit" (VInt 10))) ;;
    let page := get_or arguments "page" (VInt 1) in
    let fields := get_or arguments "fields" VNone in
    let params := [("q", query); ("limit", limit); ("page", page);
                   ("fields", fields)] in
    data <~ make_api_request remote "artworks/search" (Some params) ;;
    response_text <~ lift (format_artwork_response data) ;;
    io_ret (text_reply response_text)
  else if String.eqb name "get_artwork" then
    let artwork_id := get_or arguments "artwork_id" VNone in
    let fields := get_or arguments "fields" VNone in
    let params := if truthy fields then Some [("fields", fields)] else None in
    data <~ make_api_request remote ("artworks/" ++ py_str artwork_id) params ;;
    response_text <~ lift (format_artwork_response data) ;;
    io_ret (text_reply response_text)
  else if String.eqb name "search_agents" then
    let query := get_or arguments "query" VNone in
    limit <~ lift (min_max_results (get_or arguments "limit" (VInt 10))) ;;
    let page := get_or arguments "page" (VInt 1) in
    let params := [("q", query); ("limit", limit); ("page", page)] in
    data <~ make_api_request remote "agents/search" (Some params) ;;
    response_text <~ lift (format_agent_response data) ;;
    io_ret (text_reply response_text)
  else if String.eqb name "get_agent" then
    let agent_id := get_or arguments "agent_id" VNone in
    data <~ make_api_request remote ("agents/" ++ py_str agent_id) None ;;
    response_text <~ lift (format_agent_response data) ;;
    io_ret (text_reply response_text)
  else if String.eqb name "search_exhibitions" then
    let query := get_or arguments "query" VNone in
    limit <~ lift (min_max_results (get_or arguments "limit" (VInt 10))) ;;
    let page := get_or arguments "page" (VInt 1) in
    let params := [("q", query); ("limit", limit); ("page", page)] in
    data <~ make_api_request remote "exhibitions/search" (Some params) ;;
    response_text <~ lift (format_exhibition_response data) ;;
    io_ret (text_reply response_text)
  else if String.eqb name "get_exhibition" then
    let exhibition_id := get_or arguments "exhibition_id" VNone in
    data <~ make_api_request remote ("exhibitions/" ++ py_str exhibition_id) None ;;
    response_text <~ lift (format_exhibition_response data) ;;
    io_ret (text_reply response_text)
  else if String.eqb name "list_galleries" then
    limit <~ lift (min_max_results (get_or arguments "limit" (VInt 20))) ;;
    let page := get_or arguments "page" (VInt 1) in
    let params := [("limit", limit); ("page", page)] in
    data <~ make_api_request remote "galleries" (Some params) ;;
    response_text <~ lift (format_gallery_response data) ;;
    io_ret (text_reply response_text)
  else if String.eqb name "get_gallery" then
    let gallery_id := get_or arguments "gallery_id" VNone in
    data <~ make_api_request remote ("galleries/" ++ py_str gallery_id) None ;;
    response_text <~ lift (format_gallery_response data) ;;
    io_ret (text_reply response_text)
  else if String.eqb name "search_all" then
    let query := get_or arguments "query" VNone in
    limit <~ lift (min_max_results (get_or arguments "limit" (VInt 10))) ;;
    let params := [("q", query); ("limit", limit)] in
    data <~ make_api_request remote "search" (Some params) ;;
    response_text <~ lift (format_mixed_response data limit) ;;
    io_ret (text_reply response_text)
  else
    io_ret (text_reply ("Unknown tool: " ++ name)).

(** [call_tool]: the [try] block under its two handlers
    (server.py 586-597). *)
Definition call_tool (remote : request -> reply)
    (name : string) (arguments : dict) : io (list TextContent) :=
  fun sent =>
    match call_tool_body remote name arguments sent with
    | (Return content, sent') => (Return content, sent')
    | (Raise (AICAPIError msg), sent') =>
        (Return (text_reply ("Error: " ++ msg)), sent')
    | (Raise e, sent') =>
        (Return (text_reply ("Unexpected error: " ++ exc_str e)), sent')
    end.

(** ** Tool declarations *)

(** [mcp.types.Tool], with the three fields the declarations set. *)
Record Tool : Type :=
  { name : string; description : string; inputSchema : pyval }.

(** [list_tools] (server.py 249-447). *)
Definition list_tools : list Tool :=
  [{| name := "search_artworks";
     description :=
       "Search for artworks in the Art Institute of Chicago "
       ++ "collection. Returns artwork details including title, artist, "
       ++ "date, medium, description, and images. Supports full-text "
       ++ "search across all artwork metadata.";
     inputSchema :=
       VDict
         [("type", VStr "object");
          ("properties", VDict
           [("query", VDict
             [("type", VStr "string");
              ("description",
               VStr ("Search query (e.g., 'Monet', 'impressionism', "
                     ++ "'landscape')"))]);
            ("limit", VDict
             [("type", VStr "integer");
              ("description",
               VStr ("Number of results to return (default: 10, max: "
                     ++ "100)"));
              ("default", VInt 10)]);
            ("page", VDict
             [("type", VStr "integer");
              ("description", VStr "Page number for pagination (default: 1)");
              ("default", VInt 1)]);
            ("fields", VDict
             [("type", VStr "string");
              ("description",
               VStr ("Comma-separated list of fields to return (e.g., "
                     ++ "'title,artist_display,image_id')"))])]);
          ("required", VList [VStr "query"])] |};
   {| name := "get_artwork";
     description :=
       "Get detailed information about a specific artwork by its ID. "
       ++ "Returns complete artwork metadata including dimensions, "
       ++ "provenance, exhibition history, and high-resolution images.";
     inputSchema :=
       VDict
         [("type", VStr "object");
          ("properties", VDict
           [("artwork_id", VDict
             [("type", VStr "integer");
              ("description", VStr "The unique ID of the artwork")]);
            ("fields", VDict
             [("type", VStr "string");
              ("description", VStr "Comma-separated list of fields to return")])]);
          ("required", VList [VStr "artwork_id"])] |};
   {| name := "search_agents";
     description :=
       "Search for artists, creators, and cultural agents. Returns "
       ++ "biographical information including birth/death dates and "
       ++ "descriptions.";
     inputSchema :=
       VDict
         [("type", VStr "object");
          ("properties", VDict
           [("query", VDict
             [("type", VStr "string");
              ("description",
               VStr ("Search query (e.g., artist name or cultural "
                     ++ "movement)"))]);
            ("limit", VDict
             [("type", VStr "integer");
              ("description",
               VStr ("Number of results to return (default: 10, max: "
                     ++ "100)"));
              ("default", VInt 10)]);
            ("page", VDict
             [("type", VStr "integer");
              ("description", VStr "Page number for pagination (default: 1)");
              ("default", VInt 1)])]);
          ("required", VList [VStr "query"])] |};
   {| name := "get_agent";
     description :=
       "Get detailed information about a specific artist or cultural "
       ++ "agent by ID.";
     inputSchema :=
       VDict
         [("type", VStr "object");
          ("properties", VDict
           [("agent_id", VDict
             [("type", VStr "integer");
              ("description", VStr "The unique ID of the agent/artist")])]);
          ("required", VList [VStr "agent_id"])] |};
   {| name := "search_exhibitions";
     description :=
       "Search for current, past, and upcoming exhibitions. Returns "
       ++ "exhibition details including dates, locations, and "
       ++ "descriptions.";
     inputSchema :=
       VDict
         [("type", VStr "object");
          ("properties", VDict
           [("query", VDict
             [("type", VStr "string");
              ("description",
               VStr ("Search query (e.g., exhibition theme or "
                     ++ "title)"))]);
            ("limit", VDict
             [("type", VStr "integer");
              ("description",
               VStr ("Number of results to return (default: 10, max: "
                     ++ "100)"));
              ("default", VInt 10)]);
            ("page", VDict
             [("type", VStr "integer");
              ("description", VStr "Page number for pagination (default: 1)");
              ("default", VInt 1)])]);
          ("required", VList [VStr "query"])] |};
   {| name := "get_exhibition";
     description :=
       "Get detailed information about a specific exhibition by ID.";
     inputSchema :=
       VDict
         [("type", VStr "object");
          ("properties", VDict
           [("exhibition_id", VDict
             [("type", VStr "integer");
              ("description", VStr "The unique ID of the exhibition")])]);
          ("required", VList [VStr "exhibition_id"])] |};
   {| name := "list_galleries";
     description :=
       "List museum galleries with their locations and current "
       ++ "status. Useful for finding where artworks are displayed.";
     inputSchema :=
       VDict
         [("type", VStr "object");
          ("properties", VDict
           [("limit", VDict
             [("type", VStr "integer");
              ("description",
               VStr ("Number of results to return (default: 20, max: "
                     ++ "100)"));
              ("default", VInt 20)]);
            ("page", VDict
             [("type", VStr "integer");
              ("description", VStr "Page number for pagination (default: 1)");
              ("default", VInt 1)])])] |};
   {| name := "get_gallery";
     description :=
       "Get detailed information about a specific gallery by ID.";
     inputSchema :=
       VDict
         [("type", VStr "object");
          ("properties", VDict
           [("gallery_id", VDict
             [("type", VStr "integer");
              ("description", VStr "The unique ID of the gallery")])]);
          ("required", VList [VStr "gallery_id"])] |};
   {| name := "search_all";
     description :=
       "Search across all content types in the museum collection "
       ++ "(artworks, agents, exhibitions, galleries, and more). Best "
       ++ "for broad exploratory searches.";
     inputSchema :=
       VDict
         [("type", VStr "object");
          ("properties", VDict
           [("query", VDict
             [("type", VStr "string");
              ("description", VStr "Search query")]);
            ("limit", VDict
             [("type", VStr "integer");
              ("description",
               VStr ("Number of results to return (default: 10, max: "
                     ++ "100)"));
              ("default", VInt 10)])]);
          ("required", VList [VStr "query"])] |}].

(** ** The connection test of test_server.py *)

(** The [try] block of [test_api_connection] ends at the first exception,
    whatever its class, and the handler only reports it: a step of the block
    yields a value or nothing, and extends the list of requests sent.  The
    [print] calls write to the standard output, which is not modelled; the
    expressions they format are evaluated, since they can raise. *)
Definition attempt (A : Type) : Type := list request -> option A * list request.

Definition attempt_ret {A : Type} (a : A) : attempt A :=
  fun sent => (Some a, sent).

Definition attempt_bind {A B : Type} (m : attempt A) (k : A -> attempt B)
  : attempt B :=
  fun sent =>
    match m sent with
    | (Some a, sent') => k a sent'
    | (None, sent') => (None, sent')
    end.

Definition of_io {A : Type} (m : io A) : attempt A :=
  fun sent =>
    match m sent with
    | (Return a, sent') => (Some a, sent')
    | (Raise _, sent') => (None, sent')
    end.

Definition of_outcome {A : Type} (m : outcome A) : attempt A :=
  of_io (lift m).

Notation "x <-- m ;; k" := (attempt_bind m (fun x => k))
  (at level 61, m at next level, right associativity) : py_scope.

(** [len(v)]: defined on strings, lists and dicts; [None] when it raises. *)
Definition py_len (v : pyval) : option Z :=
  match v with
  | VStr s => Some (len_str s)
  | VList l => Some (len l)
  | VDict d => Some (len d)
  | _ => None
  end.

(** [v[0]]: the first element of a list, the first character of a string;
    [None] when it raises. *)
Definition py_first (v : pyval) : option pyval :=
  match v with
  | VList (x :: _) => Some x
  | VStr (String c _) => Some (VStr (String c ""))
  | _ => None
  end.

(** [data.get('pagination', {}).get('total', 0)], formatted by the [print]
    that follows each search. *)
Definition print_total (data : dict) : attempt pyval :=
  of_outcome (py_get (get_or data "pagination" (VDict [])) "total" (VInt 0)).

Definition test_api_connection_body (remote : request -> reply) : attempt bool :=
  data <-- of_io (make_api_request remote "artworks/search"
                    (Some [("q", VStr "Monet"); ("limit", VInt 3)])) ;;
  _ <-- print_total data ;;
  _ <-- (if truthy (get_or data "data" VNone)
         then
           n <-- (fun sent => (py_len (get_or data "data" VNone), sent)) ;;
           if n >? 0
           then
             first <-- (fun sent => (py_first (get_or data "data" VNone), sent)) ;;
             artwork_id <-- of_outcome (py_get first "id" VNone) ;;
             artwork_data <-- of_io (make_api_request remote
                                       ("artworks/" ++ py_str artwork_id) None) ;;
             _ <-- of_outcome (py_get (get_or artwork_data "data" (VDict []))
                                 "title" (VStr "Unknown")) ;;
             attempt_ret tt
           else attempt_ret tt
         else attempt_ret tt) ;;
  agent_data <-- of_io (make_api_request remote "agents/search"
                          (Some [("q", VStr "Picasso"); ("limit", VInt 1)])) ;;
  _ <-- print_total agent_data ;;
  gallery_data <-- of_io (make_api_request remote "galleries"
                            (Some [("limit", VInt 5)])) ;;
  _ <-- print_total gallery_data ;;
  exhibition_data <-- of_io (make_api_request remote "exhibitions/search"
                               (Some [("q", VStr "impressionism");
                                      ("limit", VInt 1)])) ;;
  _ <-- print_total exhibition_data ;;
  attempt_ret true.

(** [test_api_connection] (test_server.py 14-65): [True] when the block runs
    to its end, [False] from the handler. *)
Definition test_api_connection (remote : request -> reply)
  : list request -> bool * list request :=
  fun sent =>
    match test_api_connection_body remote sent with
    | (Some success, sent') => (success, sent')
    | (None, sent') => (false, sent')
    end.

(** [main] of test_server.py: the status passed to [sys.exit]. *)
Definition test_main (remote : request -> reply)
  : list request -> Z * list request :=
  fun sent =>
    let (success, sent') := test_api_connection remote sent in
    (if success then 0 else 1, sent').

(** * Vocabulary of the statements *)

(** The names declared by [list_tools] and tested by [call_tool]. *)
Definition tool_names : list string :=
  ["search_artworks"; "get_artwork"; "search_agents"; "get_agent";
   "search_exhibitions"; "get_exhibition"; "list_galleries"; "get_gallery";
   "search_all"].

(** The tools that take a [limit], and those that take a [query]. *)
Definition limit_tools : list string :=
  ["search_artworks"; "search_agents"; "search_exhibitions"; "list_galleries";
   "search_all"].

Definition search_tools : list string :=
  ["search_artworks"; "search_agents"; "search_exhibitions"; "search_all"].

Definition default_limit (name : string) : Z :=
  if String.eqb name "list_galleries" then 20 else 10.

Definition endpoint_of (name : string) : string :=
  if String.eqb name "search_artworks" then "artworks/search"
  else if String.eqb name "search_agents" then "agents/search"
  else if String.eqb name "search_exhibitions" then "exhibitions/search"
  else if String.eqb name "list_galleries" then "galleries"
  else "search".

(** The parameter dict a limit-taking branch builds, before the adapter
    filters it. *)
Definition params_of (name : string) (arguments : dict) (limit : pyval) : dict :=
  let query := get_or arguments "query" VNone in
  let page := get_or arguments "page" (VInt 1) in
  let fields := get_or arguments "fields" VNone in
  if String.eqb name "search_artworks"
  then [("q", query); ("limit", limit); ("page", page); ("fields", fields)]
  else if String.eqb name "list_galleries"
  then [("limit", limit); ("page", page)]
  else if String.eqb name "search_all"
  then [("q", query); ("limit", limit)]
  else [("q", query); ("limit", limit); ("page", page)].

Definition render_of (name : string) (data : dict) (limit : pyval)
  : outcome string :=
  if String.eqb name "search_artworks" then format_artwork_response data
  else if String.eqb name "search_agents" then format_agent_response data
  else if String.eqb name "search_exhibitions" then format_exhibition_response data
  else if String.eqb name "list_galleries" then format_gallery_response data
  else format_mixed_response data limit.

(** The five limit-taking branches of [call_tool] have one shape. *)
Definition listing_branch (remote : request -> reply) (name : string)
    (arguments : dict) : io (list TextContent) :=
  limit <~ lift (min_max_results
                   (get_or arguments "limit" (VInt (default_limit name)))) ;;
  data <~ make_api_request remote (endpoint_of name)
            (Some (params_of name arguments limit)) ;;
  response_text <~ lift (render_of name data limit) ;;
  io_ret (text_reply response_text).

(** The parameters a request carries, none when it carries no dict. *)
Definition request_params (rq : request) : dict :=
  match params rq with
  | Some p => p
  | None => []
  end.

(** The value an outbound request carries for a parameter. *)
Definition outbound (k : string) (rq : request) : option pyval :=
  dict_get k (request_params rq).

Definition no_null (rq : request) : Prop :=
  Forall (fun kv => snd kv <> VNone) (request_params rq).

(** The range the specification promises for an outbound limit. *)
Definition limit_in_range (rq : request) : Prop :=
  exists n, outbound "limit" rq = Some (VInt n) /\ 1 <= n <= 100.

(** The truncation rule as the specification words it: a description longer
    than 300 characters is cut to 300 and followed by an ellipsis, any other
    is left as it is. *)
Definition spec_truncate (s : string) : string :=
  if (300 <? String.length s)%nat then str_prefix 300 s ++ "..." else s.

(** The description an artwork record resolves to:
    [artwork.get("short_description") or artwork.get("description", ...)]. *)
Definition artwork_description (d : dict) : pyval :=
  py_or (get_or d "short_description" VNone)
        (get_or d "description" (VStr "No description available")).

(** The line every renderer writes for a string description. *)
Definition description_line (s : string) : string :=
  nl ++ "Description: " ++ spec_truncate s ++ nl.

(** The exceptions that reach the second handler of [call_tool]. *)
Definition builtin (e : pyexc) : Prop :=
  match e with
  | AICAPIError _ => False
  | _ => True
  end.

Definition null_or_absent (v : option pyval) : Prop :=
  v = None \/ v = Some VNone.

Definition not_subscriptable : pyexc :=
  TypeError "'NoneType' object is not subscriptable".

Definition page_1_of_4 : pyval :=
  VDict [("total", VInt 37); ("limit", VInt 10); ("current_page", VInt 1);
         ("total_pages", VInt 4)].

(** [n] records, numbered from 1. *)
Definition numbered_records (n : nat) : list pyval :=
  map (fun i => VDict [("id", VInt (Z.of_nat i))]) (seq 1 n).

(** The four tools that fetch one record by id, the path they ask for and
    the argument that holds the id. *)
Definition fetch_tools : list string :=
  ["get_artwork"; "get_agent"; "get_exhibition"; "get_gallery"].

Definition fetch_prefix (n : string) : string :=
  if String.eqb n "get_artwork" then "artworks/"
  else if String.eqb n "get_agent" then "agents/"
  else if String.eqb n "get_exhibition" then "exhibitions/"
  else "galleries/".

Definition id_argument (n : string) : string :=
  if String.eqb n "get_artwork" then "artwork_id"
  else if String.eqb n "get_agent" then "agent_id"
  else if String.eqb n "get_exhibition" then "exhibition_id"
  else "gallery_id".

Definition fetch_params (n : string) (arguments : dict) : option dict :=
  if String.eqb n "get_artwork" && truthy (get_or arguments "fields" VNone)
  then Some [("fields", get_or arguments "fields" VNone)]
  else None.

Definition fetch_render (n : string) (data : dict) : outcome string :=
  if String.eqb n "get_artwork" then format_artwork_response data
  else if String.eqb n "get_agent" then format_agent_response data
  else if String.eqb n "get_exhibition" then format_exhibition_response data
  else format_gallery_response data.

(** The four fetching branches of [call_tool] have one shape. *)
Definition fetch_branch (remote : request -> reply) (n : string)
    (arguments : dict) : io (list TextContent) :=
  data <~ make_api_request remote
            (fetch_prefix n ++ py_str (get_or arguments (id_argument n) VNone))
            (fetch_params n arguments) ;;
  response_text <~ lift (fetch_render n data) ;;
  io_ret (text_reply response_text).

(** A value [min] cannot compare with [MAX_RESULTS]. *)
Definition not_a_number (v : pyval) : Prop :=
  match v with
  | VInt _ | VBool _ => False
  | _ => True
  end.

(** A [limit] argument that is absent or an integer. *)
Definition limit_is_usable (arguments : dict) : Prop :=
  dict_get "limit" arguments = None
  \/ exists z, dict_get "limit" arguments = Some (VInt z).

(** What the schema of a tool declares: its properties, and the defaults
    they advertise. *)
Definition schema_properties (t : Tool) : dict :=
  match inputSchema t with
  | VDict schema =>
      match dict_get "properties" schema with
      | Some (VDict properties) => properties
      | _ => []
      end
  | _ => []
  end.

Definition declared_arguments (t : Tool) : list string :=
  map fst (schema_properties t).

Definition declared_defaults (t : Tool) : dict :=
  flat_map (fun kv =>
              match snd kv with
              | VDict property =>
                  match dict_get "default" property with
                  | Some v => [(fst kv, v)]
                  | None => []
                  end
              | _ => []
              end)
           (schema_properties t).

(** The reply the first handler of [call_tool] gives for a failed remote
    call. *)
Definition is_failure (r : reply) : Prop :=
  match r with
  | Json _ => False
  | _ => True
  end.

(** The request [make_api_request] sends for an endpoint and a parameter
    mapping. *)
Definition sent_request (endpoint : string) (p : option dict) : request :=
  {| url := BASE_URL ++ "/" ++ lstrip_slash endpoint;
     params := match p with
               | Some ((_ :: _) as d) =>
                   Some (filter (fun kv => is_not_none (snd kv)) d)
               | _ => p
               end |}.

(** The shape every serving branch of [call_tool] ends with: one call of the
    adapter, then the renderer. *)
Definition fetch_and_render (remote : request -> reply) (endpoint : string)
    (p : option dict) (render : dict -> outcome string)
  : io (list TextContent) :=
  data <~ make_api_request remote endpoint p ;;
  response_text <~ lift (render data) ;;
  io_ret (text_reply response_text).

(** [k] slashes. *)
Fixpoint slashes (k : nat) : string :=
  match k with
  | O => ""
  | S k' => String "/" (slashes k')
  end.

Definition starts_with_slash (s : string) : bool :=
  match s with
  | String c _ => Ascii.eqb c "/"
  | EmptyString => false
  end.

(** What reaches the request of an argument read with [.get]: its value,
    the default when it is absent, nothing when it is null. *)
Definition passed_on (given : option pyval) (dflt : option pyval)
  : option pyval :=
  match given with
  | None => dflt
  | Some VNone => None
  | Some v => Some v
  end.

(** Shapes of a value. *)
Definition is_list (v : pyval) : Prop :=
  match v with VList _ => True | _ => False end.

Definition is_dict (v : pyval) : Prop :=
  match v with VDict _ => True | _ => False end.

(** A description the renderers can slice and measure. *)
Definition sliceable (v : pyval) : Prop :=
  match v with
  | VStr _ | VList _ => True
  | _ => False
  end.

(** The AttributeError of calling [.get] on a value that is not a dict. *)
Definition no_get (v : pyval) : pyexc :=
  AttributeError ("'" ++ type_name v ++ "' object has no attribute 'get'").

(** The descriptions the agent and exhibition renderers read. *)
Definition agent_description (d : dict) : pyval :=
  get_or d "description" (VStr "No description available").

Definition exhibition_description (d : dict) : pyval :=
  get_or d "short_description" (VStr "No description available").

(** [s] ends with [suffix]. *)
Definition ends_with (s suffix : string) : Prop :=
  exists pre, s = pre ++ suffix.

(** The blocks a loop over [records] produced with [f], one per record and
    in the order of the records. *)
Definition rendered_by (f : pyval -> outcome string) (records : list pyval)
    (blocks : list string) : Prop :=
  Forall2 (fun record block => f record = Return block) records blocks.

(** A text that does not begin with the letter of "Error: ". *)
Definition benign (t : string) : Prop :=
  match t with
  | String c _ => c <> "E"%char
  | EmptyString => True
  end.

(** A block opens with a line break. *)
Definition opens_a_block (b : string) : Prop := exists b', b = nl ++ b'.

(** The requests of the connection test, in the order of its five steps. *)
Definition artwork_search : request :=
  {| url := "https://api.artic.edu/api/v1/artworks/search";
     params := Some [("q", VStr "Monet"); ("limit", VInt 3)] |}.

Definition artwork_fetch (artwork_id : pyval) : request :=
  {| url := "https://api.artic.edu/api/v1/artworks/" ++ py_str artwork_id;
     params := None |}.

Definition agent_search : request :=
  {| url := "https://api.artic.edu/api/v1/agents/search";
     params := Some [("q", VStr "Picasso"); ("limit", VInt 1)] |}.

Definition gallery_listing : request :=
  {| url := "https://api.artic.edu/api/v1/galleries";
     params := Some [("limit", VInt 5)] |}.

Definition exhibition_search : request :=
  {| url := "https://api.artic.edu/api/v1/exhibitions/search";
     params := Some [("q", VStr "impressionism"); ("limit", VInt 1)] |}.

(** An envelope whose [pagination], when present, is an object. *)
Definition countable (data : dict) : Prop :=
  match dict_get "pagination" data with
  | Some (VDict _) | None => True
  | _ => False
  end.

(** The second step of the connection test, the retrieval of the first
    artwork found, and its last three steps. *)
Definition test_fetch (remote : request -> reply) (data : dict) : attempt unit :=
  if truthy (get_or data "data" VNone)
  then
    n <-- (fun sent => (py_len (get_or data "data" VNone), sent)) ;;
    if n >? 0
    then
      first <-- (fun sent => (py_first (get_or data "data" VNone), sent)) ;;
      artwork_id <-- of_outcome (py_get first "id" VNone) ;;
      artwork_data <-- of_io (make_api_request remote
                                ("artworks/" ++ py_str artwork_id) None) ;;
      _ <-- of_outcome (py_get (get_or artwork_data "data" (VDict []))
                          "title" (VStr "Unknown")) ;;
      attempt_ret tt
    else attempt_ret tt
  else attempt_ret tt.

Definition test_tail (remote : request -> reply) : attempt bool :=
  agent_data <-- of_io (make_api_request remote "agents/search"
                          (Some [("q", VStr "Picasso"); ("limit", VInt 1)])) ;;
  _ <-- print_total agent_data ;;
  gallery_data <-- of_io (make_api_request remote "galleries"
                            (Some [("limit", VInt 5)])) ;;
  _ <-- print_total gallery_data ;;
  exhibition_data <-- of_io (make_api_request remote "exhibitions/search"
                               (Some [("q", VStr "impressionism");
                                      ("limit", VInt 1)])) ;;
  _ <-- print_total exhibition_data ;;
  attempt_ret true.

(** The text [call_tool] replies with once the adapter has met [r], for a
    tool that renders with [render]: the rendered envelope, the message of a
    renderer's exception under the second handler, or the adapter's message
    under the first. *)
Definition reply_for (render : dict -> outcome string) (r : reply) : string :=
  match r with
  | Json body =>
      match render body with
      | Return response_text => response_text
      | Raise e => "Unexpected error: " ++ exc_str e
      end
  | HTTPStatusError status_code body =>
      "Error: API request failed: " ++ Z_to_string status_code ++ " - " ++ body
  | RequestError msg => "Error: Failed to connect to API: " ++ msg
  | OtherException msg => "Error: Unexpected error: " ++ msg
  end.

(** A record that is an object whose description, as read by
    [description_of], is a string. *)
Definition described (description_of : dict -> pyval) (record : pyval) : Prop :=
  exists d s, record = VDict d /\ description_of d = VStr s.

(** A description of 301 characters. *)
Definition long_description : string :=
  string_of_list_ascii (repeat "a"%char 301).

(** * Properties of the pipeline *)

(** ** The tool table *)

Lemma listing_branch_eq remote name arguments :
  In name limit_tools ->
  call_tool_body remote name arguments = listing_branch remote name arguments.
Proof.
  intros H. simpl in H.
  repeat (destruct H as [<- | H]; [reflexivity |]).
  contradiction.
Qed.

Lemma call_tool_sent remote name arguments sent :
  snd (call_tool remote name arguments sent)
  = snd (call_tool_body remote name arguments sent).
Proof.
  unfold call_tool.
  destruct (call_tool_body remote name arguments sent) as [[c | e] s]; [easy |].
  now destruct e.
Qed.

Lemma make_api_request_sent remote endpoint p sent :
  exists rq,
    snd (make_api_request remote endpoint p sent) = (sent ++ [rq])%list
    /\ url rq = BASE_URL ++ "/" ++ lstrip_slash endpoint
    /\ request_params rq
       = filter (fun kv => is_not_none (snd kv))
           (match p with Some d => d | None => [] end).
Proof.
  unfold make_api_request, list_append. eexists. split; [reflexivity |].
  split; [reflexivity |].
  destruct p as [[| kv d] |]; reflexivity.
Qed.

Lemma listing_branch_sent remote name arguments sent limit :
  min_max_results (get_or arguments "limit" (VInt (default_limit name)))
  = Return limit ->
  exists rq,
    snd (listing_branch remote name arguments sent) = (sent ++ [rq])%list
    /\ url rq = BASE_URL ++ "/" ++ lstrip_slash (endpoint_of name)
    /\ request_params rq
       = filter (fun kv => is_not_none (snd kv)) (params_of name arguments limit).
Proof.
  intros Hmin.
  destruct (make_api_request_sent remote (endpoint_of name)
              (Some (params_of name arguments limit)) sent)
    as (rq & Hsent & Hurl & Hparams).
  exists rq. split; [| now split].
  unfold listing_branch. unfold io_bind at 1. unfold lift at 1.
  rewrite Hmin.
  rewrite <- Hsent.
  unfold io_bind, lift, io_ret.
  destruct (make_api_request remote _ _ sent) as [[data | e] s]; [| reflexivity].
  now destruct (render_of name data limit).
Qed.

Lemma min_max_results_int z :
  min_max_results (VInt z) = Return (VInt (Z.min z 100)).
Proof.
  unfold min_max_results, int_lt, MAX_RESULTS, bind.
  destruct (100 <? z) eqn:E.
  - apply Z.ltb_lt in E. now rewrite Z.min_r by lia.
  - apply Z.ltb_ge in E. now rewrite Z.min_l by lia.
Qed.

Lemma filtered_limit name arguments n :
  In name limit_tools ->
  dict_get "limit"
    (filter (fun kv => is_not_none (snd kv)) (params_of name arguments (VInt n)))
  = Some (VInt n).
Proof.
  intros H. simpl in H.
  repeat (destruct H as [<- | H];
          [unfold params_of; simpl;
           destruct (is_not_none (get_or arguments "query" VNone)); reflexivity
          |]).
  contradiction.
Qed.

(** ** Query Normalizer: the limit *)

(** C1, as stated, fails: [search_artworks] called with [limit = 0] sends a
    request whose [limit] is 0, outside [1, 100]; nothing raises a small
    limit. *)
Lemma limit_zero_is_sent_as_zero :
  ~ Forall limit_in_range
      (snd (call_tool (fun _ => Json []) "search_artworks"
              [("query", VStr "monet"); ("limit", VInt 0)] [])).
Proof.
  intros H. inversion H as [| rq rest [n [Hn Hrange]] Hrest Heq]; subst.
  vm_compute in Hn. injection Hn as <-. lia.
Qed.

(** C1, amended: for each of the five limit-taking tools, an integer [limit]
    is sent as [min(limit, 100)]: it never exceeds 100, a value above 100
    becomes 100, and a value of at most 100 (zero and negative ones too) is sent
    unchanged; an absent [limit] is sent as 10, or 20 for [list_galleries]. *)
Theorem limit_capped_at_max_results remote name arguments sent :
  In name limit_tools ->
  (forall z, dict_get "limit" arguments = Some (VInt z) ->
     exists rq n,
       snd (call_tool remote name arguments sent) = (sent ++ [rq])%list
       /\ outbound "limit" rq = Some (VInt n)
       /\ n <= 100 /\ (100 < z -> n = 100) /\ (z <= 100 -> n = z))
  /\ (dict_get "limit" arguments = None ->
     exists rq,
       snd (call_tool remote name arguments sent) = (sent ++ [rq])%list
       /\ outbound "limit" rq = Some (VInt (default_limit name))
       /\ (default_limit name = 20 <-> name = "list_galleries")
       /\ (default_limit name = 10 <-> name <> "list_galleries")).
Proof.
  intros Hname.
  rewrite call_tool_sent, (listing_branch_eq _ _ _ Hname).
  split.
  - intros z Hz.
    destruct (listing_branch_sent remote name arguments sent (VInt (Z.min z 100)))
      as (rq & Hsent & _ & Hparams).
    { unfold get_or. rewrite Hz. apply min_max_results_int. }
    exists rq, (Z.min z 100). split; [exact Hsent |].
    split; [| lia].
    unfold outbound. rewrite Hparams. now apply filtered_limit.
  - intros Habsent.
    assert (Hdflt : default_limit name = Z.min (default_limit name) 100).
    { unfold default_limit. now destruct (String.eqb name "list_galleries"). }
    destruct (listing_branch_sent remote name arguments sent
                (VInt (default_limit name)))
      as (rq & Hsent & _ & Hparams).
    { unfold get_or. rewrite Habsent, min_max_results_int. now rewrite <- Hdflt. }
    exists rq. split; [exact Hsent |].
    split.
    + unfold outbound. rewrite Hparams. now apply filtered_limit.
    + unfold default_limit.
      destruct (String.eqb_spec name "list_galleries"); split; split;
        try easy; intros; congruence.
Qed.

Lemma limit_capped_at_max_results_witness :
  exists rq,
    snd (call_tool (fun _ => Json []) "search_all"
           [("query", VStr "monet"); ("limit", VInt 500)] []) = [rq]
    /\ outbound "limit" rq = Some (VInt 100).
Proof.
  destruct (limit_capped_at_max_results (fun _ => Json []) "search_all"
              [("query", VStr "monet"); ("limit", VInt 500)] [])
    as [Hint _].
  { simpl. tauto. }
  destruct (Hint 500 eq_refl) as (rq & n & Hsent & Hout & _ & Hcap & _).
  exists rq. split; [exact Hsent |].
  rewrite Hout, Hcap; [reflexivity | lia].
Defined.

(** ** Query Normalizer: the query *)

(** C2, as stated, fails: [search_artworks] called without [query] still
    sends a request. *)
Lemma missing_query_still_sends :
  dict_get "query" [] = None
  /\ snd (call_tool (fun _ => Json []) "search_artworks" [] []) <> [].
Proof.
  split; [reflexivity |]. vm_compute. discriminate.
Qed.

(** ** Remote Client Adapter: null parameters *)

(** Every branch of the [try] block sends nothing, or what one call of
    [make_api_request] sends. *)
Lemma call_tool_body_sent remote name arguments sent :
  snd (call_tool_body remote name arguments sent) = sent
  \/ exists endpoint p,
       snd (call_tool_body remote name arguments sent)
       = snd (make_api_request remote endpoint p sent).
Proof.
  unfold call_tool_body.
  repeat match goal with
         | |- context [String.eqb name ?t] => destruct (String.eqb name t)
         end;
    unfold io_bind, lift, io_ret;
    try match goal with
        | |- context [min_max_results ?v] =>
            destruct (min_max_results v) as [limit | e0]; [| now left]
        end;
    try match goal with
        | |- context [make_api_request ?r ?e ?p ?s] =>
            right; exists e, p;
            destruct (make_api_request r e p s) as [[data | e1] s1];
            [| reflexivity]
        end;
    try match goal with
        | |- context [match ?m with Return _ => _ | Raise _ => _ end] =>
            now destruct m
        end.
  now left.
Qed.

(** C4: whatever mapping is handed to [make_api_request], the request it
    sends keeps exactly the bindings whose value is not [None], so no key of
    the outbound parameter set maps to null; and every request an invocation
    of [call_tool] sends, for any tool name and arguments, is free of null
    values. *)
Theorem no_null_parameter_is_sent remote :
  (forall endpoint p sent,
     exists rq,
       snd (make_api_request remote endpoint p sent) = (sent ++ [rq])%list
       /\ no_null rq
       /\ forall k v,
            In (k, v) (request_params rq)
            <-> In (k, v) (match p with Some d => d | None => [] end)
                /\ v <> VNone)
  /\ (forall name arguments sent,
        exists new,
          snd (call_tool remote name arguments sent) = (sent ++ new)%list
          /\ Forall no_null new).
Proof.
  assert (Hadapter : forall endpoint p sent,
     exists rq,
       snd (make_api_request remote endpoint p sent) = (sent ++ [rq])%list
       /\ no_null rq
       /\ forall k v,
            In (k, v) (request_params rq)
            <-> In (k, v) (match p with Some d => d | None => [] end)
                /\ v <> VNone).
  { intros endpoint p sent.
    destruct (make_api_request_sent remote endpoint p sent)
      as (rq & Hsent & _ & Hparams).
    exists rq. split; [exact Hsent |]. unfold no_null. rewrite Hparams. split.
    - apply Forall_forall. intros [k v] Hin. apply filter_In in Hin.
      destruct Hin as [_ Hv]. simpl in *. now destruct v.
    - intros k v. rewrite filter_In. simpl.
      split; intros [Hin Hv]; (split; [exact Hin |]); now destruct v. }
  split; [exact Hadapter |].
  intros name arguments sent. rewrite call_tool_sent.
  destruct (call_tool_body_sent remote name arguments sent)
    as [-> | (endpoint & p & ->)].
  - exists []. split; [now rewrite app_nil_r | constructor].
  - destruct (Hadapter endpoint p sent) as (rq & -> & Hnull & _).
    exists [rq]. split; [reflexivity | now constructor].
Qed.

(** ** Dispatcher *)

Lemma call_tool_body_content remote name arguments sent content :
  fst (call_tool_body remote name arguments sent) = Return content ->
  exists s, content = text_reply s.
Proof.
  unfold call_tool_body.
  repeat match goal with
         | |- context [String.eqb name ?t] => destruct (String.eqb name t)
         end;
    unfold io_bind, lift, io_ret;
    try match goal with
        | |- context [min_max_results ?v] =>
            destruct (min_max_results v) as [limit | e0]; [| discriminate]
        end;
    try match goal with
        | |- context [make_api_request ?r ?e ?p ?s] =>
            destruct (make_api_request r e p s) as [[data | e1] s1];
            [| discriminate]
        end;
    try match goal with
        | |- context [match ?m with Return _ => _ | Raise _ => _ end] =>
            destruct m; [| discriminate]
        end;
    simpl; intros [= <-]; eauto.
Qed.

(** C5: [call_tool] never raises: for every remote behaviour, tool name,
    argument mapping and list of earlier requests it returns one text
    segment.  When the remote service answers [get_artwork] with a status
    error, the text is the prefixed message of the error, which contains the
    status code; for status 404 it contains 404. *)
Theorem call_tool_always_replies :
  (forall remote name arguments sent,
     exists s, fst (call_tool remote name arguments sent)
               = Return (text_reply s))
  /\ (forall status_code body arguments sent,
        fst (call_tool (fun _ => HTTPStatusError status_code body)
               "get_artwork" arguments sent)
        = Return (text_reply ("Error: API request failed: "
                              ++ Z_to_string status_code ++ " - " ++ body)))
  /\ (forall body arguments sent,
        exists s,
          fst (call_tool (fun _ => HTTPStatusError 404 body)
                 "get_artwork" arguments sent)
          = Return (text_reply s)
          /\ contains s "404").
Proof.
  split; [| split].
  - intros remote name arguments sent. unfold call_tool.
    destruct (call_tool_body remote name arguments sent) as [[c | e] s] eqn:E.
    + destruct (call_tool_body_content remote name arguments sent c) as [t ->].
      { now rewrite E. }
      now exists t.
    + destruct e; eexists; reflexivity.
  - reflexivity.
  - intros body arguments sent. eexists. split; [reflexivity |].
    exists "Error: API request failed: ", (" - " ++ body). reflexivity.
Qed.

(** C9: a name outside the tool table gets the reply "Unknown tool: " followed
    by the name, as an ordinary text segment, and the list of requests sent is
    left as it was: no outbound call is made. *)
Theorem unknown_tool_is_reported remote name arguments sent :
  ~ In name tool_names ->
  call_tool remote name arguments sent
  = (Return (text_reply ("Unknown tool: " ++ name)), sent).
Proof.
  intros Hunknown. unfold call_tool, call_tool_body.
  repeat match goal with
         | |- context [String.eqb name ?t] =>
             destruct (String.eqb_spec name t) as [-> | _];
             [exfalso; apply Hunknown; simpl; tauto |]
         end.
  reflexivity.
Qed.

Lemma unknown_tool_is_reported_witness :
  call_tool (fun _ => Json []) "delete_artwork" [("artwork_id", VInt 1)] []
  = (Return (text_reply "Unknown tool: delete_artwork"), []).
Proof.
  apply (unknown_tool_is_reported (fun _ => Json []) "delete_artwork").
  simpl. intuition discriminate.
Defined.

(** ** Strings: prefixes and containment *)

Lemma str_prefix_short n s :
  (String.length s <= n)%nat -> str_prefix n s = s.
Proof.
  unfold str_prefix. revert n.
  induction s as [| c s IH]; intros [| n] Hlen; simpl in *;
    try reflexivity; try lia.
  f_equal. apply IH. lia.
Qed.

Lemma str_prefix_length n s :
  String.length (str_prefix n s) = Nat.min n (String.length s).
Proof.
  unfold str_prefix. revert n.
  induction s as [| c s IH]; intros [| n]; simpl; try reflexivity.
  now rewrite IH.
Qed.

Lemma str_prefix_is_prefix n s :
  exists rest, s = str_prefix n s ++ rest.
Proof.
  unfold str_prefix. revert n.
  induction s as [| c s IH]; intros [| n]; simpl.
  - now exists "".
  - now exists "".
  - now exists (String c s).
  - destruct (IH n) as [rest Hrest]. exists rest. now rewrite <- Hrest.
Qed.

Lemma contains_here sub post : contains (sub ++ post) sub.
Proof. now exists "", post. Qed.

Lemma contains_refl sub : contains sub sub.
Proof.
  exists "", "". simpl. induction sub as [| c s IH]; simpl; congruence.
Qed.

Lemma append_assoc (a b c : string) : (a ++ b) ++ c = a ++ b ++ c.
Proof. induction a as [| x a IH]; simpl; congruence. Qed.

Lemma contains_skip pre s sub : contains s sub -> contains (pre ++ s) sub.
Proof.
  intros (a & b & ->). exists (pre ++ a), b. now rewrite append_assoc.
Qed.

Lemma contains_app_l s post sub : contains s sub -> contains (s ++ post) sub.
Proof.
  intros (a & b & ->). exists a, (b ++ post). now rewrite !append_assoc.
Qed.

Lemma contains_trans s mid sub :
  contains s mid -> contains mid sub -> contains s sub.
Proof.
  intros (a & b & ->) (a' & b' & ->).
  exists (a ++ a'), (b' ++ b). now rewrite !append_assoc.
Qed.

Lemma substring_skip pre sub post :
  substring (String.length pre) (String.length sub) (pre ++ sub ++ post) = sub.
Proof.
  induction pre as [| c pre IH]; simpl; [| exact IH].
  induction sub as [| c sub IH]; simpl.
  - now destruct post.
  - now rewrite IH.
Qed.

(** A string in which [index] finds no occurrence does not contain it. *)
Lemma not_contains s sub :
  sub <> "" -> index 0 sub s = None -> ~ contains s sub.
Proof.
  intros Hsub Hindex (pre & post & ->).
  apply (index_correct3 0 (String.length pre) sub _ Hindex Hsub); [lia |].
  apply substring_skip.
Qed.

Lemma substring_splits s n m :
  exists pre post, s = pre ++ substring n m s ++ post.
Proof.
  revert n m. induction s as [| c s IH]; intros n m.
  - exists "", "". now destruct n, m.
  - destruct n as [| n].
    + destruct m as [| m]; simpl.
      * now exists "", (String c s).
      * destruct (str_prefix_is_prefix m s) as [rest Hrest].
        unfold str_prefix in Hrest.
        exists "", rest. simpl. now rewrite <- Hrest.
    + destruct (IH n m) as (pre & post & Hs).
      exists (String c pre), post. simpl. now rewrite <- Hs.
Qed.

(** A string in which [index] finds an occurrence contains it. *)
Lemma index_contains s sub n : index 0 sub s = Some n -> contains s sub.
Proof.
  intros Hindex. apply index_correct1 in Hindex.
  destruct (substring_splits s n (String.length sub)) as (pre & post & Hs).
  exists pre, post. now rewrite Hindex in Hs.
Qed.

Lemma contains_line a b c d post :
  contains (a ++ b ++ c ++ d ++ post) (a ++ b ++ c ++ d).
Proof. exists "", post. simpl. now rewrite !append_assoc. Qed.

(** Walks a concatenation to the piece that is looked for: first out of the
    pieces appended after a block, then along the right-nested block. *)
Ltac find_piece :=
  repeat match goal with
         | |- contains ((_ ++ _) ++ _) _ => apply contains_app_l
         end;
  repeat first [ apply contains_refl
               | apply contains_here
               | apply contains_skip ].

(** ** Response Renderer: descriptions *)

Lemma description_field_str s :
  description_field (VStr s) = Return (spec_truncate s).
Proof.
  unfold description_field, spec_truncate, len_str.
  destruct (Nat.ltb_spec 300 (String.length s)) as [Hlong | Hshort].
  - now replace (Z.of_nat (String.length s) >? 300) with true
      by (symmetry; apply Z.gtb_lt; lia).
  - replace (Z.of_nat (String.length s) >? 300) with false.
    + rewrite str_prefix_short by exact Hshort.
      clear. induction s as [| c s IH]; simpl; congruence.
    + symmetry. rewrite Z.gtb_ltb. apply Z.ltb_ge. lia.
Qed.

Lemma Return_inj {A : Type} (a b : A) : Return a = Return b -> a = b.
Proof. now intros [= ->]. Qed.

Lemma py_item_truthy d k :
  truthy (get_or d k VNone) = true ->
  py_item (VDict d) k = Return (get_or d k VNone).
Proof.
  unfold py_item, get_or. now destruct (dict_get k d).
Qed.

Lemma artwork_text_description d s :
  artwork_description d = VStr s ->
  exists block,
    artwork_text (VDict d) = Return block /\ contains block (description_line s).
Proof.
  unfold artwork_description. intros Hdescription.
  unfold artwork_text. cbn [py_get bind].
  rewrite Hdescription, description_field_str. cbn [bind].
  destruct (truthy (get_or d "image_id" VNone)) eqn:Himage;
    [rewrite (py_item_truthy _ _ Himage) |];
    (destruct (truthy (get_or d "id" VNone)) eqn:Hid;
     [rewrite (py_item_truthy _ _ Hid) |]);
    cbn [bind]; eexists; (split; [reflexivity |]);
    unfold description_line; find_piece.
Qed.

Lemma agent_text_description d s :
  get_or d "description" (VStr "No description available") = VStr s ->
  exists block,
    agent_text (VDict d) = Return block /\ contains block (description_line s).
Proof.
  intros Hdescription.
  unfold agent_text. cbn [py_get bind].
  rewrite Hdescription, description_field_str. cbn [bind].
  eexists. split; [reflexivity |]. unfold description_line. find_piece.
Qed.

Lemma exhibition_text_description d s :
  get_or d "short_description" (VStr "No description available") = VStr s ->
  exists block,
    exhibition_text (VDict d) = Return block
    /\ contains block (description_line s).
Proof.
  intros Hdescription.
  unfold exhibition_text. cbn [py_get bind].
  rewrite Hdescription, description_field_str. cbn [bind].
  destruct (truthy (get_or d "web_url" VNone)) eqn:Hurl;
    [rewrite (py_item_truthy _ _ Hurl) |];
    cbn [bind]; eexists; (split; [reflexivity |]);
    unfold description_line; find_piece.
Qed.

(** ** Response Renderer: empty envelopes *)

(** C7: an envelope without [data] makes every renderer return its fixed
    "No ... data found." text, and an envelope whose [data] is the empty list
    makes it return its fixed "No ...s found." text; the mixed renderer
    returns "No results found." in both cases.  The renderer returns, it does
    not raise, and the text does not depend on anything else in the
    envelope. *)
Theorem no_results_for_missing_or_empty_data (data : dict) :
  (dict_get "data" data = None ->
     format_artwork_response data = Return "No artwork data found."
     /\ format_agent_response data = Return "No agent data found."
     /\ format_exhibition_response data = Return "No exhibition data found."
     /\ format_gallery_response data = Return "No gallery data found."
     /\ forall limit, format_mixed_response data limit
                      = Return "No results found.")
  /\ (dict_get "data" data = Some (VList []) ->
     format_artwork_response data = Return "No artworks found."
     /\ format_agent_response data = Return "No agents found."
     /\ format_exhibition_response data = Return "No exhibitions found."
     /\ format_gallery_response data = Return "No galleries found."
     /\ forall limit, format_mixed_response data limit
                      = Return "No results found.").
Proof.
  unfold format_artwork_response, format_agent_response,
    format_exhibition_response, format_gallery_response, format_mixed_response.
  split; intros ->; repeat split.
Qed.

Lemma no_results_for_missing_or_empty_data_witness :
  format_gallery_response [("pagination", VDict [("total", VInt 0)])]
  = Return "No gallery data found."
  /\ format_artwork_response [("data", VList []); ("pagination", VNone)]
     = Return "No artworks found.".
Proof.
  split.
  - apply (no_results_for_missing_or_empty_data
             [("pagination", VDict [("total", VInt 0)])]).
    reflexivity.
  - apply (no_results_for_missing_or_empty_data
             [("data", VList []); ("pagination", VNone)]).
    reflexivity.
Defined.

(** ** Response Renderer: artwork links *)

(** C8, as stated, fails: a record whose [id] is present with the value 0 is
    rendered, with the line "ID: 0", but without any web URL, because the
    code adds the link only when the identifier is truthy. *)
Lemma artwork_with_id_zero_has_no_web_url :
  dict_get "id" [("id", VInt 0)] = Some (VInt 0)
  /\ exists block,
       artwork_text (VDict [("id", VInt 0)]) = Return block
       /\ contains block (nl ++ "ID: 0" ++ nl)
       /\ ~ contains block (web_url (VInt 0))
       /\ ~ contains block "/artworks/".
Proof.
  split; [reflexivity |]. eexists. split; [vm_compute; reflexivity |].
  split; [eapply index_contains; vm_compute; reflexivity |].
  split; apply not_contains; (discriminate || (vm_compute; reflexivity)).
Qed.

(** C8, amended: for every artwork record that renders, if [image_id] is
    truthy (present and not null, empty, zero or false) the block contains the
    line "Image: " followed by the identifier set in
    https://www.artic.edu/iiif/2/{image_id}/full/843,/0/default.jpg, and if
    [id] is truthy the block contains the line "View online: " followed by
    https://www.artic.edu/artworks/{id}.  For [image_id] "abc123" and [id] 42
    these are .../abc123/full/843,/0/default.jpg and .../artworks/42. *)
Theorem artwork_links_for_truthy_identifiers (d : dict) (block : string) :
  artwork_text (VDict d) = Return block ->
  (truthy (get_or d "image_id" VNone) = true ->
     contains block
       ("Image: " ++ image_url (get_or d "image_id" VNone) ++ nl))
  /\ (truthy (get_or d "id" VNone) = true ->
     contains block ("View online: " ++ web_url (get_or d "id" VNone) ++ nl))
  /\ (get_or d "image_id" VNone = VStr "abc123" ->
     contains block
       "https://www.artic.edu/iiif/2/abc123/full/843,/0/default.jpg")
  /\ (get_or d "id" VNone = VInt 42 ->
     contains block "https://www.artic.edu/artworks/42").
Proof.
  intros Hblock.
  assert (Himage : truthy (get_or d "image_id" VNone) = true ->
            contains block
              ("Image: " ++ image_url (get_or d "image_id" VNone) ++ nl)).
  { intros Htruthy. revert Hblock.
    unfold artwork_text. cbn [py_get bind].
    destruct (description_field _) as [shown | e]; [| discriminate].
    cbn [bind]. rewrite Htruthy, (py_item_truthy _ _ Htruthy). cbn [bind].
    destruct (truthy (get_or d "id" VNone)) eqn:Hid;
      [rewrite (py_item_truthy _ _ Hid) |];
      cbn [bind]; intros Heq; apply Return_inj in Heq; subst block.
    - apply contains_app_l. apply contains_skip, contains_refl.
    - apply contains_skip, contains_refl. }
  assert (Hweb : truthy (get_or d "id" VNone) = true ->
            contains block
              ("View online: " ++ web_url (get_or d "id" VNone) ++ nl)).
  { intros Htruthy. revert Hblock.
    unfold artwork_text. cbn [py_get bind].
    destruct (description_field _) as [shown | e]; [| discriminate].
    cbn [bind]. rewrite Htruthy, (py_item_truthy _ _ Htruthy).
    destruct (truthy (get_or d "image_id" VNone)) eqn:Himg;
      [rewrite (py_item_truthy _ _ Himg) |];
      cbn [bind]; intros Heq; apply Return_inj in Heq; subst block;
      apply contains_skip, contains_refl. }
  split; [exact Himage |]. split; [exact Hweb |]. split.
  - intros Heq. rewrite Heq in Himage.
    apply (contains_trans _ _ _ (Himage eq_refl)).
    apply contains_skip, contains_here.
  - intros Heq. rewrite Heq in Hweb.
    apply (contains_trans _ _ _ (Hweb eq_refl)).
    apply contains_skip, contains_here.
Qed.

Lemma artwork_links_for_truthy_identifiers_witness :
  exists block,
    artwork_text (VDict [("id", VInt 42); ("image_id", VStr "abc123")])
    = Return block
    /\ contains block
         "https://www.artic.edu/iiif/2/abc123/full/843,/0/default.jpg"
    /\ contains block "https://www.artic.edu/artworks/42".
Proof.
  eexists. split; [reflexivity |].
  destruct (artwork_links_for_truthy_identifiers
              [("id", VInt 42); ("image_id", VStr "abc123")] _ eq_refl)
    as (_ & _ & Himage & Hweb).
  split; [exact (Himage eq_refl) | exact (Hweb eq_refl)].
Defined.

(** ** Response Renderer: null descriptions *)

Lemma for_each_raises {A B : Type} (f : A -> outcome B) l x e :
  In x l -> f x = Raise e ->
  exists y e', In y l /\ f y = Raise e' /\ for_each f l = Raise e'.
Proof.
  induction l as [| a l IH]; simpl; [contradiction |].
  intros Hin Hx. destruct (f a) as [b | e0] eqn:Ha.
  - destruct Hin as [-> | Hin]; [congruence |].
    destruct (IH Hin Hx) as (y & e' & Hy & Hfy & Hloop).
    exists y, e'. rewrite Hloop. auto.
  - exists a, e0. auto.
Qed.

Lemma description_field_builtin v e :
  description_field v = Raise e -> builtin e.
Proof. destruct v; simpl; intros [= <-]; exact I. Qed.

Lemma min_max_results_builtin v e :
  min_max_results v = Raise e -> builtin e.
Proof. destruct v; simpl; intros [= <-]; exact I. Qed.

Lemma agent_text_builtin v e : agent_text v = Raise e -> builtin e.
Proof.
  destruct v; try (simpl; intros [= <-]; exact I).
  unfold agent_text. cbn [py_get bind].
  destruct (description_field _) as [shown | e0] eqn:Hshown; cbn [bind];
    [discriminate |].
  intros [= <-]. exact (description_field_builtin _ _ Hshown).
Qed.

Lemma artwork_text_builtin v e : artwork_text v = Raise e -> builtin e.
Proof.
  destruct v; try (simpl; intros [= <-]; exact I).
  unfold artwork_text. cbn [py_get bind].
  destruct (description_field _) as [shown | e0] eqn:Hshown; cbn [bind].
  - destruct (truthy (get_or d "image_id" VNone)) eqn:Himage;
      [rewrite (py_item_truthy _ _ Himage) |];
      (destruct (truthy (get_or d "id" VNone)) eqn:Hid;
       [rewrite (py_item_truthy _ _ Hid) |]);
      cbn [bind]; discriminate.
  - intros [= <-]. exact (description_field_builtin _ _ Hshown).
Qed.

Lemma agent_text_null_description d :
  dict_get "description" d = Some VNone ->
  agent_text (VDict d) = Raise not_subscriptable.
Proof.
  intros Hnull. unfold agent_text, get_or. cbn [py_get bind].
  unfold get_or. now rewrite Hnull.
Qed.

Lemma artwork_text_null_description d :
  dict_get "description" d = Some VNone ->
  null_or_absent (dict_get "short_description" d) ->
  artwork_text (VDict d) = Raise not_subscriptable.
Proof.
  intros Hnull Hshort. unfold artwork_text. cbn [py_get bind].
  unfold get_or. rewrite Hnull. now destruct Hshort as [-> | ->].
Qed.

Section FailingRenderer.

Variables (remote : request -> reply) (data : dict) (payload : pyval).
Hypothesis remote_answers : forall rq, remote rq = Json data.
Hypothesis data_present : dict_get "data" data = Some payload.

Lemma make_api_request_answers endpoint p sent :
  fst (make_api_request remote endpoint p sent) = Return data.
Proof. unfold make_api_request. now rewrite remote_answers. Qed.

Lemma format_agent_response_raises record e :
  In record (firstn 10 (as_list payload)) ->
  agent_text record = Raise e ->
  exists e', builtin e' /\ format_agent_response data = Raise e'.
Proof.
  intros Hin Hraise.
  destruct (for_each_raises agent_text _ _ _ Hin Hraise)
    as (y & e' & _ & Hy & Hloop).
  exists e'. split; [exact (agent_text_builtin _ _ Hy) |].
  unfold format_agent_response. rewrite data_present.
  destruct (as_list payload); [contradiction |].
  cbn [is_empty]. now rewrite Hloop.
Qed.

Lemma format_artwork_response_raises record e :
  In record (firstn 10 (as_list payload)) ->
  artwork_text record = Raise e ->
  exists e', builtin e' /\ format_artwork_response data = Raise e'.
Proof.
  intros Hin Hraise.
  destruct (for_each_raises artwork_text _ _ _ Hin Hraise)
    as (y & e' & _ & Hy & Hloop).
  exists e'. split; [exact (artwork_text_builtin _ _ Hy) |].
  unfold format_artwork_response. rewrite data_present.
  destruct (as_list payload); [contradiction |].
  cbn [is_empty]. now rewrite Hloop.
Qed.

(** A tool whose renderer raises on the answer replies with the generic
    error text. *)
Lemma failing_renderer_reply name arguments sent e :
  (In name ["search_artworks"; "get_artwork"]
   /\ format_artwork_response data = Raise e)
  \/ (In name ["search_agents"; "get_agent"]
      /\ format_agent_response data = Raise e) ->
  builtin e ->
  exists msg,
    fst (call_tool remote name arguments sent)
    = Return (text_reply ("Unexpected error: " ++ msg)).
Proof.
  intros [[Hname Hraise] | [Hname Hraise]] Hbuiltin; simpl in Hname;
    destruct Hname as [<- | [<- | []]];
    unfold call_tool, call_tool_body;
    cbn [String.eqb Ascii.eqb Bool.eqb];
    unfold io_bind, lift, io_ret;
    try match goal with
        | |- context [min_max_results ?v] =>
            let H := fresh "Hmin" in
            destruct (min_max_results v) as [limit | e0] eqn:H;
            [| apply min_max_results_builtin in H;
               destruct e0; try contradiction; eexists; reflexivity]
        end;
    match goal with
    | |- context [make_api_request ?r ?ep ?p ?s] =>
        pose proof (make_api_request_answers ep p s) as Hanswer;
        destruct (make_api_request r ep p s) as [[body | e1] s1];
        simpl in Hanswer; [| discriminate];
        apply Return_inj in Hanswer; subst body
    end;
    rewrite Hraise;
    destruct e; try contradiction; eexists; reflexivity.
Qed.

End FailingRenderer.

(** C10: the default "No description available" replaces an absent key only.
    An agent record whose [description] is present and null, and an artwork
    record whose [description] is present and null while [short_description]
    is null or absent, make their renderer raise the TypeError of slicing
    [None].  When such a record is among the records the renderer visits, the
    invocation of the agent or artwork tool returns the single text
    "Unexpected error: ..." and no rendered block; for a single record
    fetched by [get_agent] or [get_artwork] the text is exactly
    "Unexpected error: 'NoneType' object is not subscriptable". *)
Theorem null_description_is_an_unexpected_error :
  (forall d,
     dict_get "description" d = Some VNone ->
     agent_text (VDict d) = Raise not_subscriptable)
  /\ (forall d,
        dict_get "description" d = Some VNone ->
        null_or_absent (dict_get "short_description" d) ->
        artwork_text (VDict d) = Raise not_subscriptable)
  /\ (forall remote name arguments sent data payload d,
        (forall rq, remote rq = Json data) ->
        dict_get "data" data = Some payload ->
        In (VDict d) (firstn 10 (as_list payload)) ->
        dict_get "description" d = Some VNone ->
        In name ["search_agents"; "get_agent"]
        \/ (In name ["search_artworks"; "get_artwork"]
            /\ null_or_absent (dict_get "short_description" d)) ->
        exists msg,
          fst (call_tool remote name arguments sent)
          = Return (text_reply ("Unexpected error: " ++ msg)))
  /\ (forall remote name arguments sent data d,
        (forall rq, remote rq = Json data) ->
        dict_get "data" data = Some (VDict d) ->
        dict_get "description" d = Some VNone ->
        name = "get_agent"
        \/ (name = "get_artwork"
            /\ null_or_absent (dict_get "short_description" d)) ->
        fst (call_tool remote name arguments sent)
        = Return (text_reply
                    "Unexpected error: 'NoneType' object is not subscriptable")).
Proof.
  split; [exact agent_text_null_description |].
  split; [exact artwork_text_null_description |].
  split.
  - intros remote name arguments sent data payload d
      Hremote Hdata Hin Hnull [Hname | [Hname Hshort]].
    + destruct (format_agent_response_raises data payload Hdata (VDict d)
                  not_subscriptable Hin (agent_text_null_description d Hnull))
        as (e & Hbuiltin & Hraise).
      apply (failing_renderer_reply remote data Hremote name arguments sent e);
        [right; now split | exact Hbuiltin].
    + destruct (format_artwork_response_raises data payload Hdata (VDict d)
                  not_subscriptable Hin
                  (artwork_text_null_description d Hnull Hshort))
        as (e & Hbuiltin & Hraise).
      apply (failing_renderer_reply remote data Hremote name arguments sent e);
        [left; now split | exact Hbuiltin].
  - intros remote name arguments sent data d Hremote Hdata Hnull Hname.
    assert (Hbody : fst (call_tool_body remote name arguments sent)
                    = Raise not_subscriptable).
    { destruct Hname as [-> | [-> Hshort]];
        unfold call_tool_body; cbn [String.eqb Ascii.eqb Bool.eqb];
        unfold io_bind, lift, io_ret;
        match goal with
        | |- context [make_api_request ?r ?ep ?p ?s] =>
            pose proof (make_api_request_answers r data Hremote ep p s)
              as Hanswer;
            destruct (make_api_request r ep p s) as [[body | e1] s1];
            simpl in Hanswer; [| discriminate];
            apply Return_inj in Hanswer; subst body
        end.
      - unfold format_agent_response. rewrite Hdata. cbn [as_list is_empty].
        cbn [firstn for_each]. now rewrite (agent_text_null_description d Hnull).
      - unfold format_artwork_response. rewrite Hdata. cbn [as_list is_empty].
        cbn [firstn for_each].
        now rewrite (artwork_text_null_description d Hnull Hshort). }
    unfold call_tool.
    destruct (call_tool_body remote name arguments sent) as [[c | e] s];
      simpl in Hbody; [discriminate |].
    injection Hbody as ->. reflexivity.
Qed.

Lemma null_description_is_an_unexpected_error_witness :
  fst (call_tool
         (fun _ => Json [("data", VDict [("id", VInt 7); ("description", VNone)])])
         "get_agent" [("agent_id", VInt 7)] [])
  = Return (text_reply
              "Unexpected error: 'NoneType' object is not subscriptable").
Proof.
  destruct null_description_is_an_unexpected_error as (_ & _ & _ & Hsingle).
  apply (Hsingle _ "get_agent" _ _
           [("data", VDict [("id", VInt 7); ("description", VNone)])]
           [("id", VInt 7); ("description", VNone)]).
  - reflexivity.
  - reflexivity.
  - reflexivity.
  - now left.
Defined.

(** ** Response Renderer: the pagination summary *)

(** C3: evaluation of the renderers at the input on which the summary
    departs from the number of rendered blocks.  With ten records the artwork
    summary reads "Showing 10 of 37 total results (Page 1/4)"; with eleven
    records ten blocks are rendered, and the summary of the artwork renderer
    and of the agent renderer both count 11. *)
Theorem summary_counts_records_before_the_cap :
  (exists blocks,
     for_each artwork_text (firstn 10 (numbered_records 10)) = Return blocks
     /\ List.length blocks = 10%nat
     /\ format_artwork_response
          [("data", VList (numbered_records 10)); ("pagination", page_1_of_4)]
        = Return (join separator
                    (list_append blocks
                       (nl ++ "Showing 10 of 37 total results (Page 1/4)"))))
  /\ (exists blocks,
        for_each artwork_text (firstn 10 (numbered_records 11)) = Return blocks
        /\ List.length blocks = 10%nat
        /\ format_artwork_response
             [("data", VList (numbered_records 11)); ("pagination", page_1_of_4)]
           = Return (join separator
                       (list_append blocks
                          (nl ++ "Showing 11 of 37 total results (Page 1/4)"))))
  /\ (exists blocks,
        for_each agent_text (firstn 10 (numbered_records 11)) = Return blocks
        /\ List.length blocks = 10%nat
        /\ format_agent_response
             [("data", VList (numbered_records 11)); ("pagination", page_1_of_4)]
           = Return (join separator
                       (list_append blocks
                          (nl ++ "Showing 11 of 37 total results")))).
Proof.
  repeat split; eexists;
    (split; [vm_compute; reflexivity |]);
    (split; [reflexivity |]); vm_compute; reflexivity.
Qed.

(** * Further properties of the code *)

(** ** Dispatcher: what is sent *)

Lemma fetch_branch_eq remote n arguments :
  In n fetch_tools ->
  call_tool_body remote n arguments = fetch_branch remote n arguments.
Proof.
  intros H. simpl in H.
  repeat (destruct H as [<- | H]; [reflexivity |]).
  contradiction.
Qed.

Lemma unknown_tool_body remote n arguments :
  ~ In n tool_names ->
  call_tool_body remote n arguments = io_ret (text_reply ("Unknown tool: " ++ n)).
Proof.
  intros Hunknown. unfold call_tool_body.
  repeat match goal with
         | |- context [String.eqb n ?t] =>
             destruct (String.eqb_spec n t) as [-> | _];
             [exfalso; apply Hunknown; simpl; tauto |]
         end.
  reflexivity.
Qed.

Lemma tool_names_split n :
  In n tool_names <-> In n limit_tools \/ In n fetch_tools.
Proof. simpl. tauto. Qed.

Lemma fetch_branch_sent remote n arguments sent :
  snd (fetch_branch remote n arguments sent)
  = snd (make_api_request remote
           (fetch_prefix n ++ py_str (get_or arguments (id_argument n) VNone))
           (fetch_params n arguments) sent).
Proof.
  unfold fetch_branch, io_bind, lift, io_ret.
  destruct (make_api_request remote _ _ sent) as [[data | e] s]; [| reflexivity].
  now destruct (fetch_render n data).
Qed.

Lemma usable_limit_normalises n arguments :
  limit_is_usable arguments ->
  exists z,
    min_max_results (get_or arguments "limit" (VInt (default_limit n)))
    = Return (VInt z).
Proof.
  unfold get_or. intros [-> | [z ->]]; eexists; apply min_max_results_int.
Qed.

Lemma list_tools_names : map name list_tools = tool_names.
Proof. reflexivity. Qed.

Lemma app_one_neq {A : Type} (l : list A) x : (l ++ [x])%list <> l.
Proof.
  intros H. apply (f_equal (@List.length A)) in H.
  rewrite length_app in H. simpl in H. lia.
Qed.

(** X1: the names [list_tools] declares are exactly the names [call_tool]
    serves: called without arguments, a tool sends a request if and only if
    its name is declared. *)
Theorem declared_tools_are_the_served_ones remote n sent :
  In n (map name list_tools)
  <-> exists rq, snd (call_tool remote n [] sent) = (sent ++ [rq])%list.
Proof.
  rewrite list_tools_names, call_tool_sent. split.
  - intros Hin. apply tool_names_split in Hin. destruct Hin as [Hin | Hin].
    + rewrite (listing_branch_eq _ _ _ Hin).
      destruct (usable_limit_normalises n [] (or_introl eq_refl)) as [z Hz].
      destruct (listing_branch_sent remote n [] sent _ Hz) as (rq & Hsent & _).
      now exists rq.
    + rewrite (fetch_branch_eq _ _ _ Hin), fetch_branch_sent.
      destruct (make_api_request_sent remote
                  (fetch_prefix n ++ py_str (get_or [] (id_argument n) VNone))
                  (fetch_params n []) sent) as (rq & Hsent & _).
      now exists rq.
  - intros [rq Hsent].
    destruct (in_dec string_dec n tool_names) as [Hin | Hout]; [exact Hin |].
    rewrite (unknown_tool_body _ _ _ Hout) in Hsent. simpl in Hsent.
    symmetry in Hsent. now apply app_one_neq in Hsent.
Qed.

(** X2: an invocation of [call_tool] keeps the requests sent before it and
    adds at most one; for a declared tool whose [limit] is absent or an
    integer it adds exactly one. *)
Theorem at_most_one_request remote n arguments sent :
  exists new,
    snd (call_tool remote n arguments sent) = (sent ++ new)%list
    /\ (List.length new <= 1)%nat
    /\ (In n tool_names -> limit_is_usable arguments -> List.length new = 1%nat).
Proof.
  rewrite call_tool_sent.
  destruct (in_dec string_dec n tool_names) as [Hin | Hout].
  - apply tool_names_split in Hin. destruct Hin as [Hin | Hin].
    + rewrite (listing_branch_eq _ _ _ Hin).
      destruct (min_max_results
                  (get_or arguments "limit" (VInt (default_limit n))))
        as [limit | e] eqn:Hmin.
      * destruct (listing_branch_sent remote n arguments sent _ Hmin)
          as (rq & Hsent & _).
        exists [rq]. rewrite Hsent. simpl. auto.
      * exists []. unfold listing_branch, io_bind, lift. rewrite Hmin. simpl.
        rewrite app_nil_r. repeat split; [lia |].
        intros _ Husable.
        destruct (usable_limit_normalises n arguments Husable) as [z Hz].
        congruence.
    + rewrite (fetch_branch_eq _ _ _ Hin), fetch_branch_sent.
      destruct (make_api_request_sent remote
                  (fetch_prefix n
                   ++ py_str (get_or arguments (id_argument n) VNone))
                  (fetch_params n arguments) sent) as (rq & Hsent & _).
      exists [rq]. rewrite Hsent. simpl. auto.
  - rewrite (unknown_tool_body _ _ _ Hout). exists []. simpl.
    rewrite app_nil_r. repeat split; [lia | contradiction].
Qed.

Lemma at_most_one_request_witness :
  exists new,
    snd (call_tool (fun _ => RequestError "timed out") "get_gallery"
           [("gallery_id", VInt 2)] []) = new
    /\ List.length new = 1%nat.
Proof.
  destruct (at_most_one_request (fun _ => RequestError "timed out")
              "get_gallery" [("gallery_id", VInt 2)] [])
    as (new & Hsent & _ & Hone).
  exists new. split; [exact Hsent |].
  apply Hone; [simpl; tauto | now left].
Defined.

(** X3: a [limit] that [min] cannot compare with 100 (a string, a list, a
    dict, or an explicit null) ends the invocation before anything is sent:
    the reply is the text of the TypeError under "Unexpected error: ". *)
Theorem unusable_limit_sends_nothing remote n arguments sent v :
  In n limit_tools ->
  dict_get "limit" arguments = Some v ->
  not_a_number v ->
  call_tool remote n arguments sent
  = (Return (text_reply
               ("Unexpected error: '<' not supported between instances of "
                ++ "'int' and '" ++ type_name v ++ "'")), sent).
Proof.
  intros Hin Hlimit Hv. unfold call_tool.
  rewrite (listing_branch_eq _ _ _ Hin).
  unfold listing_branch, io_bind, lift, get_or. rewrite Hlimit.
  destruct v; try contradiction; reflexivity.
Qed.

Lemma unusable_limit_sends_nothing_witness :
  call_tool (fun _ => Json []) "search_all"
    [("query", VStr "cats"); ("limit", VNone)] []
  = (Return (text_reply
               ("Unexpected error: '<' not supported between instances of "
                ++ "'int' and 'NoneType'")), []).
Proof.
  apply (unusable_limit_sends_nothing (fun _ => Json []) "search_all"
           [("query", VStr "cats"); ("limit", VNone)] [] VNone).
  - simpl. tauto.
  - reflexivity.
  - exact I.
Defined.

Lemma make_api_request_run remote endpoint p sent :
  make_api_request remote endpoint p sent
  = (match remote (sent_request endpoint p) with
     | Json body => Return body
     | HTTPStatusError status_code text =>
         Raise (AICAPIError ("API request failed: " ++ Z_to_string status_code
                             ++ " - " ++ text))
     | RequestError msg => Raise (AICAPIError ("Failed to connect to API: " ++ msg))
     | OtherException msg => Raise (AICAPIError ("Unexpected error: " ++ msg))
     end, (sent ++ [sent_request endpoint p])%list).
Proof. reflexivity. Qed.

(** Every declared tool either stops at its limit, before any request, or
    runs one adapter call followed by its renderer. *)
Lemma call_tool_body_run remote n arguments sent :
  In n tool_names ->
  (exists e, builtin e /\ call_tool_body remote n arguments sent = (Raise e, sent))
  \/ exists endpoint p render,
       call_tool_body remote n arguments sent
       = fetch_and_render remote endpoint p render sent.
Proof.
  intros Hin. apply tool_names_split in Hin. destruct Hin as [Hin | Hin].
  - rewrite (listing_branch_eq _ _ _ Hin).
    destruct (min_max_results
                (get_or arguments "limit" (VInt (default_limit n))))
      as [limit | e] eqn:Hmin.
    + right. exists (endpoint_of n), (Some (params_of n arguments limit)),
        (fun data => render_of n data limit).
      unfold listing_branch, io_bind at 1, lift at 1. now rewrite Hmin.
    + left. exists e. split; [exact (min_max_results_builtin _ _ Hmin) |].
      unfold listing_branch, io_bind, lift. now rewrite Hmin.
  - right. rewrite (fetch_branch_eq _ _ _ Hin).
    now exists (fetch_prefix n
                ++ py_str (get_or arguments (id_argument n) VNone)),
      (fetch_params n arguments), (fetch_render n).
Qed.

Lemma fetch_and_render_sent remote endpoint p render sent :
  snd (fetch_and_render remote endpoint p render sent)
  = (sent ++ [sent_request endpoint p])%list.
Proof.
  unfold fetch_and_render, io_bind, lift, io_ret.
  rewrite make_api_request_run.
  destruct (remote _); try reflexivity. now destruct (render body).
Qed.

Lemma last_request_eq (sent : list request) rq rq' :
  (sent ++ [rq])%list = (sent ++ [rq'])%list -> rq = rq'.
Proof. intros H. apply app_inv_head in H. now injection H. Qed.

(** X4: when the remote call of an invocation fails, the reply is "Error: "
    followed by the adapter's message for the class of the failure: the status
    code and body of a status error, the cause of a transport error under
    "Failed to connect to API: ", any other cause under "Unexpected error: ". *)
Theorem adapter_failures_are_reported remote n arguments sent rq :
  snd (call_tool remote n arguments sent) = (sent ++ [rq])%list ->
  match remote rq with
  | Json _ => True
  | HTTPStatusError status_code body =>
      fst (call_tool remote n arguments sent)
      = Return (text_reply ("Error: API request failed: "
                            ++ Z_to_string status_code ++ " - " ++ body))
  | RequestError msg =>
      fst (call_tool remote n arguments sent)
      = Return (text_reply ("Error: Failed to connect to API: " ++ msg))
  | OtherException msg =>
      fst (call_tool remote n arguments sent)
      = Return (text_reply ("Error: Unexpected error: " ++ msg))
  end.
Proof.
  rewrite call_tool_sent. intros Hsent.
  destruct (in_dec string_dec n tool_names) as [Hin | Hout].
  - destruct (call_tool_body_run remote n arguments sent Hin)
      as [(e & _ & Hrun) | (endpoint & p & render & Hrun)].
    + rewrite Hrun in Hsent. simpl in Hsent. symmetry in Hsent.
      now apply app_one_neq in Hsent.
    + rewrite Hrun, fetch_and_render_sent in Hsent.
      apply last_request_eq in Hsent. subst rq.
      unfold call_tool. rewrite Hrun.
      unfold fetch_and_render, io_bind, lift, io_ret.
      rewrite make_api_request_run.
      now destruct (remote (sent_request endpoint p)).
  - rewrite (unknown_tool_body _ _ _ Hout) in Hsent. simpl in Hsent.
    symmetry in Hsent. now apply app_one_neq in Hsent.
Qed.

Lemma adapter_failures_are_reported_witness :
  fst (call_tool (fun _ => RequestError "timed out") "list_galleries" [] [])
  = Return (text_reply "Error: Failed to connect to API: timed out").
Proof.
  exact (adapter_failures_are_reported (fun _ => RequestError "timed out")
           "list_galleries" [] []
           (sent_request "galleries" (Some [("limit", VInt 20); ("page", VInt 1)]))
           eq_refl).
Defined.

(** ** Remote Client Adapter: the request target *)

Lemma lstrip_slash_splits endpoint :
  exists k,
    endpoint = slashes k ++ lstrip_slash endpoint
    /\ starts_with_slash (lstrip_slash endpoint) = false.
Proof.
  induction endpoint as [| c rest IH].
  - now exists O.
  - simpl. destruct (Ascii.eqb c "/") eqn:Hc.
    + apply Ascii.eqb_eq in Hc. subst c.
      destruct IH as (k & Hsplit & Hstart).
      exists (S k). simpl. now rewrite <- Hsplit.
    + exists O. simpl. now rewrite Hc.
Qed.

(** X5: the request target is the base location, one slash, and the endpoint
    without its leading slashes: nothing but leading slashes is removed, what
    follows the base's slash never starts with a slash, and endpoints that
    differ only in leading slashes give the same call. *)
Theorem leading_slashes_are_ignored remote endpoint p sent :
  (exists k,
     endpoint = slashes k ++ lstrip_slash endpoint
     /\ starts_with_slash (lstrip_slash endpoint) = false
     /\ url (sent_request endpoint p)
        = "https://api.artic.edu/api/v1/" ++ lstrip_slash endpoint)
  /\ snd (make_api_request remote endpoint p sent)
     = (sent ++ [sent_request endpoint p])%list
  /\ forall k,
       make_api_request remote (slashes k ++ endpoint) p sent
       = make_api_request remote endpoint p sent.
Proof.
  split; [| split].
  - destruct (lstrip_slash_splits endpoint) as (k & Hsplit & Hstart).
    exists k. repeat split; assumption.
  - reflexivity.
  - intros k. assert (Hstrip : lstrip_slash (slashes k ++ endpoint)
                               = lstrip_slash endpoint).
    { induction k as [| k IH]; [reflexivity | exact IH]. }
    rewrite !make_api_request_run. unfold sent_request. now rewrite Hstrip.
Qed.

(** ** Query Normalizer: what each argument becomes *)

Lemma fetch_request n arguments :
  In n fetch_tools ->
  sent_request
    (fetch_prefix n ++ py_str (get_or arguments (id_argument n) VNone))
    (fetch_params n arguments)
  = {| url := BASE_URL ++ "/" ++ fetch_prefix n
              ++ py_str (get_or arguments (id_argument n) VNone);
       params := fetch_params n arguments |}.
Proof.
  intros Hin. unfold sent_request. f_equal.
  - simpl in Hin.
    repeat (destruct Hin as [<- | Hin]; [reflexivity |]). contradiction.
  - unfold fetch_params.
    destruct (String.eqb n "get_artwork"); [| reflexivity].
    destruct (truthy (get_or arguments "fields" VNone)) eqn:Htruthy;
      [| reflexivity].
    simpl. now destruct (get_or arguments "fields" VNone).
Qed.

(** X6: each of the four fetching tools sends one request whose path is the
    kind followed by the text of the id argument, with no query parameters,
    except the [fields] of [get_artwork] when it is truthy.  An absent id is
    not refused: the path then ends in "None". *)
Theorem fetch_tools_ask_for_the_id_path remote n arguments sent :
  In n fetch_tools ->
  snd (call_tool remote n arguments sent)
  = (sent ++ [{| url := "https://api.artic.edu/api/v1/" ++ fetch_prefix n
                        ++ py_str (get_or arguments (id_argument n) VNone);
                 params := fetch_params n arguments |}])%list
  /\ (n <> "get_artwork" -> fetch_params n arguments = None)
  /\ (dict_get (id_argument n) arguments = None ->
      py_str (get_or arguments (id_argument n) VNone) = "None").
Proof.
  intros Hin. split; [| split].
  - rewrite call_tool_sent, (fetch_branch_eq _ _ _ Hin), fetch_branch_sent.
    rewrite make_api_request_run. simpl snd.
    now rewrite (fetch_request n arguments Hin).
  - intros Hn. unfold fetch_params.
    destruct (String.eqb_spec n "get_artwork"); [contradiction | reflexivity].
  - intros Habsent. unfold get_or. now rewrite Habsent.
Qed.

Lemma fetch_tools_ask_for_the_id_path_witness :
  snd (call_tool (fun _ => Json []) "get_exhibition" [] [])
  = [{| url := "https://api.artic.edu/api/v1/exhibitions/None";
        params := None |}].
Proof.
  exact (proj1 (fetch_tools_ask_for_the_id_path (fun _ => Json [])
                  "get_exhibition" [] []
                  (or_intror (or_intror (or_introl eq_refl))))).
Defined.

Lemma listing_request remote n arguments sent :
  In n limit_tools ->
  limit_is_usable arguments ->
  exists rq limit,
    snd (call_tool remote n arguments sent) = (sent ++ [rq])%list
    /\ request_params rq
       = filter (fun kv => is_not_none (snd kv)) (params_of n arguments limit)
    /\ is_not_none limit = true.
Proof.
  intros Hin Husable.
  destruct (usable_limit_normalises n arguments Husable) as [z Hz].
  rewrite call_tool_sent, (listing_branch_eq _ _ _ Hin).
  destruct (listing_branch_sent remote n arguments sent _ Hz)
    as (rq & Hsent & _ & Hparams).
  now exists rq, (VInt z).
Qed.

(** X7: the three searches by kind and the gallery listing send [page] as it
    was given, whatever its value (no bound is applied), send 1 when it is
    absent, and send no [page] when it is an explicit null; [search_all] never
    sends a [page]. *)
Theorem page_is_passed_through remote n arguments sent :
  limit_is_usable arguments ->
  (In n ["search_artworks"; "search_agents"; "search_exhibitions";
         "list_galleries"] ->
   exists rq,
     snd (call_tool remote n arguments sent) = (sent ++ [rq])%list
     /\ outbound "page" rq
        = passed_on (dict_get "page" arguments) (Some (VInt 1)))
  /\ (n = "search_all" ->
      exists rq,
        snd (call_tool remote n arguments sent) = (sent ++ [rq])%list
        /\ ~ In "page" (map fst (request_params rq))).
Proof.
  intros Husable. split.
  - intros Hin.
    destruct (listing_request remote n arguments sent) as
      (rq & limit & Hsent & Hparams & Hlimit); [simpl in *; tauto | assumption |].
    exists rq. split; [exact Hsent |].
    unfold outbound. rewrite Hparams. unfold params_of, get_or.
    simpl in Hin.
    repeat (destruct Hin as [<- | Hin];
            [simpl; rewrite Hlimit;
             repeat match goal with
                    | |- context [is_not_none (match ?o with
                                               | Some _ => _ | None => VNone
                                               end)] => destruct o as [[] |]
                    end;
             simpl; destruct (dict_get "page" arguments) as [[] |];
             reflexivity |]).
    contradiction.
  - intros ->.
    destruct (listing_request remote "search_all" arguments sent) as
      (rq & limit & Hsent & Hparams & Hlimit); [simpl; tauto | assumption |].
    exists rq. split; [exact Hsent |].
    rewrite Hparams. unfold params_of. simpl. rewrite Hlimit.
    destruct (is_not_none (get_or arguments "query" VNone)); simpl;
      intuition discriminate.
Qed.

Lemma page_is_passed_through_witness :
  exists rq,
    snd (call_tool (fun _ => Json []) "list_galleries"
           [("page", VInt 100000)] []) = [rq]
    /\ outbound "page" rq = Some (VInt 100000).
Proof.
  apply (page_is_passed_through (fun _ => Json []) "list_galleries"
           [("page", VInt 100000)] []).
  - now left.
  - simpl. tauto.
Defined.

(** X8: a search tool sends a [query] that is not null under the name [q],
    unchanged; [search_artworks] sends [fields] likewise, unchanged when it is
    given and not null and not at all otherwise; the gallery listing sends
    neither, whatever the arguments hold. *)
Theorem query_and_fields_are_passed_through remote n arguments sent :
  limit_is_usable arguments ->
  (In n search_tools ->
   forall v, dict_get "query" arguments = Some v -> v <> VNone ->
   exists rq,
     snd (call_tool remote n arguments sent) = (sent ++ [rq])%list
     /\ outbound "q" rq = Some v
     /\ ~ In "query" (map fst (request_params rq)))
  /\ (n = "search_artworks" ->
      exists rq,
        snd (call_tool remote n arguments sent) = (sent ++ [rq])%list
        /\ outbound "fields" rq = passed_on (dict_get "fields" arguments) None)
  /\ (n = "list_galleries" ->
      exists rq,
        snd (call_tool remote n arguments sent) = (sent ++ [rq])%list
        /\ ~ In "q" (map fst (request_params rq))
        /\ ~ In "fields" (map fst (request_params rq))).
Proof.
  intros Husable. split; [| split].
  - intros Hin v Hquery Hv.
    destruct (listing_request remote n arguments sent) as
      (rq & limit & Hsent & Hparams & Hlimit); [simpl in *; tauto | assumption |].
    exists rq. split; [exact Hsent |].
    unfold outbound. rewrite Hparams. unfold params_of, get_or. rewrite Hquery.
    assert (Hkeep : is_not_none v = true) by now destruct v.
    simpl in Hin.
    repeat (destruct Hin as [<- | Hin];
            [simpl; rewrite Hkeep, Hlimit; simpl;
             repeat match goal with
                    | |- context [is_not_none ?x] => destruct (is_not_none x)
                    end;
             simpl; (split; [reflexivity | intuition discriminate]) |]).
    contradiction.
  - intros ->.
    destruct (listing_request remote "search_artworks" arguments sent) as
      (rq & limit & Hsent & Hparams & Hlimit); [simpl; tauto | assumption |].
    exists rq. split; [exact Hsent |].
    unfold outbound. rewrite Hparams. unfold params_of, get_or. simpl.
    rewrite Hlimit.
    destruct (is_not_none match dict_get "query" arguments with
                          | Some v => v | None => VNone end);
      destruct (is_not_none match dict_get "page" arguments with
                            | Some v => v | None => VInt 1 end);
      simpl; destruct (dict_get "fields" arguments) as [[] |]; reflexivity.
  - intros ->.
    destruct (listing_request remote "list_galleries" arguments sent) as
      (rq & limit & Hsent & Hparams & Hlimit); [simpl; tauto | assumption |].
    exists rq. split; [exact Hsent |].
    rewrite Hparams. unfold params_of. simpl. rewrite Hlimit.
    destruct (is_not_none (get_or arguments "page" (VInt 1))); simpl;
      intuition discriminate.
Qed.

Lemma query_and_fields_are_passed_through_witness :
  exists rq,
    snd (call_tool (fun _ => Json []) "search_artworks"
           [("query", VStr "water lilies"); ("fields", VStr "id,title")] [])
    = [rq]
    /\ outbound "q" rq = Some (VStr "water lilies")
    /\ ~ In "query" (map fst (request_params rq)).
Proof.
  destruct (query_and_fields_are_passed_through (fun _ => Json [])
              "search_artworks"
              [("query", VStr "water lilies"); ("fields", VStr "id,title")] []
              (or_introl eq_refl))
    as (Hquery & _ & _).
  apply (Hquery (or_introl eq_refl) (VStr "water lilies") eq_refl).
  discriminate.
Defined.

(** ** Tool declarations against the dispatcher *)

(** X9: every default a tool's schema advertises is the default [call_tool]
    applies: leaving the argument out and passing the advertised default give
    the same reply and the same request. *)
Theorem advertised_defaults_are_applied remote t k v arguments sent :
  In t list_tools ->
  In (k, v) (declared_defaults t) ->
  dict_get k arguments = None ->
  call_tool remote (name t) ((k, v) :: arguments) sent
  = call_tool remote (name t) arguments sent.
Proof.
  intros Hin Hdefault Habsent. unfold call_tool.
  assert (Hbody : call_tool_body remote (name t) ((k, v) :: arguments)
                  = call_tool_body remote (name t) arguments);
    [| now rewrite Hbody].
  simpl in Hin.
  repeat (destruct Hin as [<- | Hin];
          [simpl in Hdefault;
           repeat (destruct Hdefault as [[= <- <-] | Hdefault];
                   [unfold call_tool_body;
                    cbn [name String.eqb Ascii.eqb Bool.eqb];
                    unfold get_or;
                    cbn [dict_get String.eqb Ascii.eqb Bool.eqb];
                    rewrite Habsent; reflexivity |]);
           contradiction |]).
  contradiction.
Qed.

Lemma advertised_defaults_are_applied_witness :
  call_tool (fun _ => Json []) "list_galleries" [("limit", VInt 20)] []
  = call_tool (fun _ => Json []) "list_galleries" [] [].
Proof.
  apply (advertised_defaults_are_applied (fun _ => Json [])
           (nth 6 list_tools (Build_Tool "" "" VNone)) "limit" (VInt 20) [] []).
  - simpl. tauto.
  - simpl. tauto.
  - reflexivity.
Defined.

(** X10: an argument a tool's schema does not declare is never read: adding
    it to the arguments of any declared tool changes neither the reply nor the
    request. *)
Theorem undeclared_arguments_are_ignored remote t k v arguments sent :
  In t list_tools ->
  ~ In k (declared_arguments t) ->
  call_tool remote (name t) ((k, v) :: arguments) sent
  = call_tool remote (name t) arguments sent.
Proof.
  intros Hin Hundeclared. unfold call_tool.
  assert (Hbody : call_tool_body remote (name t) ((k, v) :: arguments)
                  = call_tool_body remote (name t) arguments);
    [| now rewrite Hbody].
  simpl in Hin.
  repeat (destruct Hin as [<- | Hin];
          [unfold call_tool_body;
           cbn [name String.eqb Ascii.eqb Bool.eqb];
           unfold get_or; cbn [dict_get];
           repeat match goal with
                  | |- context [String.eqb ?a k] =>
                      destruct (String.eqb_spec a k) as [<- | _];
                      [exfalso; apply Hundeclared; simpl; tauto |]
                  end;
           reflexivity |]).
  contradiction.
Qed.

Lemma undeclared_arguments_are_ignored_witness :
  call_tool (fun _ => Json []) "search_all"
    [("page", VInt 3); ("query", VStr "cats")] []
  = call_tool (fun _ => Json []) "search_all" [("query", VStr "cats")] [].
Proof.
  apply (undeclared_arguments_are_ignored (fun _ => Json [])
           (nth 8 list_tools (Build_Tool "" "" VNone)) "page" (VInt 3)
           [("query", VStr "cats")] []).
  - simpl. tauto.
  - simpl. intuition discriminate.
Defined.

(** ** Response Renderer: the shape of [data] *)

(** X11: a [data] that is one object is rendered exactly as the list holding
    that object, by each of the four renderers, whatever else the envelope
    holds. *)
Theorem single_record_is_wrapped (v : pyval) (rest : dict) :
  ~ is_list v ->
  format_artwork_response (("data", v) :: rest)
  = format_artwork_response (("data", VList [v]) :: rest)
  /\ format_agent_response (("data", v) :: rest)
     = format_agent_response (("data", VList [v]) :: rest)
  /\ format_exhibition_response (("data", v) :: rest)
     = format_exhibition_response (("data", VList [v]) :: rest)
  /\ format_gallery_response (("data", v) :: rest)
     = format_gallery_response (("data", VList [v]) :: rest).
Proof.
  intros Hv.
  unfold format_artwork_response, format_agent_response,
    format_exhibition_response, format_gallery_response, with_total.
  cbn [dict_get String.eqb Ascii.eqb Bool.eqb].
  destruct v; try (exfalso; apply Hv; exact I); repeat split.
Qed.

Lemma single_record_is_wrapped_witness :
  format_gallery_response [("data", VDict [("id", VInt 2)])]
  = format_gallery_response [("data", VList [VDict [("id", VInt 2)]])].
Proof.
  apply (single_record_is_wrapped (VDict [("id", VInt 2)]) []).
  intros H. exact H.
Defined.

(** X12: a [data] that is present but is neither a list nor an object (a
    null, a number, a string, a boolean) is not treated as empty: each of the
    four renderers raises the AttributeError of calling [.get] on it.  The
    renderer of [search_all] differs: it answers "No results found." for a
    null, as for any falsy [data]. *)
Theorem scalar_data_is_not_empty (data : dict) (v : pyval) :
  dict_get "data" data = Some v ->
  (~ is_list v -> ~ is_dict v ->
   format_artwork_response data = Raise (no_get v)
   /\ format_agent_response data = Raise (no_get v)
   /\ format_exhibition_response data = Raise (no_get v)
   /\ format_gallery_response data = Raise (no_get v))
  /\ (truthy v = false ->
      forall limit, format_mixed_response data limit
                    = Return "No results found.").
Proof.
  intros Hdata. split.
  - intros Hlist Hdict.
    unfold format_artwork_response, format_agent_response,
      format_exhibition_response, format_gallery_response.
    rewrite Hdata.
    destruct v; try (exfalso; apply Hlist; exact I);
      try (exfalso; apply Hdict; exact I); repeat split.
  - intros Hfalsy limit. unfold format_mixed_response.
    now rewrite Hdata, Hfalsy.
Qed.

Lemma scalar_data_is_not_empty_witness :
  format_agent_response [("data", VNone)]
  = Raise (AttributeError "'NoneType' object has no attribute 'get'")
  /\ format_mixed_response [("data", VNone)] (VInt 10)
     = Return "No results found.".
Proof.
  destruct (scalar_data_is_not_empty [("data", VNone)] VNone eq_refl)
    as [Hfour Hmixed].
  split.
  - apply Hfour; intros H; exact H.
  - apply Hmixed. reflexivity.
Defined.

(** ** Response Renderer: which records render *)

Lemma description_field_returns v :
  (exists shown, description_field v = Return shown) <-> sliceable v.
Proof.
  destruct v; simpl; split;
    try (intros _; exact I); try contradiction;
    try (intros [shown Hshown]; discriminate);
    intros _; eexists; reflexivity.
Qed.

(** X13: a record that is an object fails to render only through its
    description: the artwork, agent and exhibition renderers return a block
    exactly when the description they read is a string or a list, and they
    always do when the description keys are absent; the gallery renderer and
    the renderer of [search_all] return a block for every object. *)
Theorem records_fail_only_by_description (d : dict) :
  ((exists block, artwork_text (VDict d) = Return block)
   <-> sliceable (artwork_description d))
  /\ ((exists block, agent_text (VDict d) = Return block)
      <-> sliceable (agent_description d))
  /\ ((exists block, exhibition_text (VDict d) = Return block)
      <-> sliceable (exhibition_description d))
  /\ (exists block, gallery_text (VDict d) = Return block)
  /\ (exists line, mixed_text (VDict d) = Return line)
  /\ (dict_get "description" d = None ->
      dict_get "short_description" d = None ->
      sliceable (artwork_description d) /\ sliceable (agent_description d)
      /\ sliceable (exhibition_description d)).
Proof.
  split; [| split; [| split; [| split; [| split]]]].
  - rewrite <- description_field_returns.
    unfold artwork_text, artwork_description. cbn [py_get bind].
    destruct (description_field _) as [shown | e]; cbn [bind].
    + split; [eauto | intros _].
      destruct (truthy (get_or d "image_id" VNone)) eqn:Himage;
        [rewrite (py_item_truthy _ _ Himage) |];
        (destruct (truthy (get_or d "id" VNone)) eqn:Hid;
         [rewrite (py_item_truthy _ _ Hid) |]);
        cbn [bind]; eexists; reflexivity.
    + split; intros [x Hx]; discriminate.
  - rewrite <- description_field_returns.
    unfold agent_text, agent_description. cbn [py_get bind].
    destruct (description_field _) as [shown | e]; cbn [bind].
    + split; eauto.
    + split; intros [x Hx]; discriminate.
  - rewrite <- description_field_returns.
    unfold exhibition_text, exhibition_description. cbn [py_get bind].
    destruct (description_field _) as [shown | e]; cbn [bind].
    + split; [eauto | intros _].
      destruct (truthy (get_or d "web_url" VNone)) eqn:Hurl;
        [rewrite (py_item_truthy _ _ Hurl) |];
        cbn [bind]; eexists; reflexivity.
    + split; intros [x Hx]; discriminate.
  - eexists. reflexivity.
  - eexists. reflexivity.
  - intros Hlong Hshort.
    unfold artwork_description, agent_description, exhibition_description,
      py_or, get_or.
    rewrite Hlong, Hshort. simpl. auto.
Qed.

Lemma records_fail_only_by_description_witness :
  exists block, artwork_text (VDict [("id", VInt 5)]) = Return block.
Proof.
  destruct (records_fail_only_by_description [("id", VInt 5)])
    as (Hartwork & _ & _ & _ & _ & Habsent).
  apply Hartwork. apply Habsent; reflexivity.
Defined.

(** ** Response Renderer: the display cap *)

Lemma for_each_rendered_by f records blocks :
  for_each f records = Return blocks -> rendered_by f records blocks.
Proof.
  revert blocks. induction records as [| r records IH]; simpl; intros blocks.
  - intros H. apply Return_inj in H. subst. constructor.
  - destruct (f r) as [b |] eqn:Hr; simpl; [| discriminate].
    destruct (for_each f records) as [bs |]; simpl; [| discriminate].
    intros H. apply Return_inj in H. subst. constructor; auto.
    apply IH. reflexivity.
Qed.

Lemma capped_blocks f cap (l : list pyval) blocks :
  for_each f (firstn cap l) = Return blocks ->
  rendered_by f (firstn cap l) blocks
  /\ List.length blocks = Nat.min cap (List.length l).
Proof.
  intros H. apply for_each_rendered_by in H. split; [exact H |].
  rewrite <- (Forall2_length H). apply length_firstn.
Qed.

Lemma with_total_shape data count result result' :
  with_total data count result = Return result' ->
  exists summary,
    result' = (result ++ summary)%list
    /\ (List.length summary <= 1)%nat
    /\ (dict_get "pagination" data = None -> summary = []).
Proof.
  unfold with_total.
  destruct (dict_get "pagination" data) as [pagination |].
  - destruct pagination; simpl; try discriminate.
    intros H. apply Return_inj in H. subst. unfold list_append.
    eexists. split; [reflexivity |]. split; [simpl; lia | discriminate].
  - intros H. apply Return_inj in H. subst. exists [].
    rewrite app_nil_r. repeat split. simpl. lia.
Qed.

(** X14: when a renderer returns a text for a non-empty list of records, the
    text is the blocks of the first 10 records (20 for galleries), one block
    per record and in the order of the records, joined by the separator line
    and followed by at most one summary line, none when the envelope has no
    [pagination]. *)
Theorem renderers_show_the_first_records (data : dict) (l : list pyval)
    (text : string) :
  dict_get "data" data = Some (VList l) ->
  l <> [] ->
  (format_artwork_response data = Return text ->
   exists blocks summary,
     rendered_by artwork_text (firstn 10 l) blocks
     /\ List.length blocks = Nat.min 10 (List.length l)
     /\ (List.length summary <= 1)%nat
     /\ (dict_get "pagination" data = None -> summary = [])
     /\ text = join separator (blocks ++ summary))
  /\ (format_agent_response data = Return text ->
      exists blocks summary,
        rendered_by agent_text (firstn 10 l) blocks
        /\ List.length blocks = Nat.min 10 (List.length l)
        /\ (List.length summary <= 1)%nat
        /\ (dict_get "pagination" data = None -> summary = [])
        /\ text = join separator (blocks ++ summary))
  /\ (format_exhibition_response data = Return text ->
      exists blocks summary,
        rendered_by exhibition_text (firstn 10 l) blocks
        /\ List.length blocks = Nat.min 10 (List.length l)
        /\ (List.length summary <= 1)%nat
        /\ (dict_get "pagination" data = None -> summary = [])
        /\ text = join separator (blocks ++ summary))
  /\ (format_gallery_response data = Return text ->
      exists blocks summary,
        rendered_by gallery_text (firstn 20 l) blocks
        /\ List.length blocks = Nat.min 20 (List.length l)
        /\ (List.length summary <= 1)%nat
        /\ (dict_get "pagination" data = None -> summary = [])
        /\ text = join separator (blocks ++ summary)).
Proof.
  intros Hdata Hl.
  assert (Hshared : forall f cap,
            (result <- for_each f (firstn cap l) ;;
             result <- with_total data (len l) result ;;
             Return (join separator result)) = Return text ->
            exists blocks summary,
              rendered_by f (firstn cap l) blocks
              /\ List.length blocks = Nat.min cap (List.length l)
              /\ (List.length summary <= 1)%nat
              /\ (dict_get "pagination" data = None -> summary = [])
              /\ text = join separator (blocks ++ summary)).
  { intros f cap.
    destruct (for_each f (firstn cap l)) as [blocks |] eqn:Hblocks; simpl;
      [| discriminate].
    destruct (with_total data (len l) blocks) as [result |] eqn:Hresult; simpl;
      [| discriminate].
    intros H. apply Return_inj in H. subst text.
    destruct (with_total_shape _ _ _ _ Hresult) as (summary & -> & Hone & Hnone).
    destruct (capped_blocks _ _ _ _ Hblocks) as [Hrendered Hlength].
    now exists blocks, summary. }
  unfold format_agent_response, format_exhibition_response,
    format_gallery_response, format_artwork_response.
  rewrite Hdata. cbn [as_list].
  destruct l as [| r l']; [contradiction |]. cbn [is_empty].
  split; [| split; [| split]]; try apply Hshared.
  destruct (for_each artwork_text (firstn 10 (r :: l'))) as [blocks |] eqn:Hblocks;
    cbn [bind]; [| discriminate].
  destruct (capped_blocks _ _ _ _ Hblocks) as [Hrendered Hlength].
  destruct (dict_get "pagination" data) as [pagination |].
  - destruct pagination; cbn [py_get bind]; try discriminate.
    intros H. apply Return_inj in H. subst text. unfold list_append.
    match goal with
    | |- context [(blocks ++ [?line])%list] => exists blocks, [line]
    end.
    split; [exact Hrendered |]. split; [exact Hlength |].
    split; [simpl; lia |]. split; [discriminate | reflexivity].
  - cbn [bind]. intros H. apply Return_inj in H. subst text.
    exists blocks, []. rewrite app_nil_r. repeat split; try assumption.
    simpl. lia.
Qed.

Lemma renderers_show_the_first_records_witness :
  exists blocks,
    rendered_by gallery_text (firstn 20 (numbered_records 25)) blocks
    /\ List.length blocks = 20%nat.
Proof.
  destruct (format_gallery_response [("data", VList (numbered_records 25))])
    as [text |] eqn:Htext; [| vm_compute in Htext; discriminate].
  destruct (renderers_show_the_first_records
              [("data", VList (numbered_records 25))] (numbered_records 25) text
              eq_refl) as (_ & _ & _ & Hgallery); [discriminate |].
  destruct (Hgallery Htext) as (blocks & summary & Hrendered & Hlength & _).
  exists blocks. split; [exact Hrendered | exact Hlength].
Defined.

(** X15: the records after the display cap are never inspected: two
    envelopes that agree on everything but the records after the first 10 (20
    for galleries), and hold as many records, get the same rendering or the
    same exception. *)
Theorem records_after_the_cap_are_not_read (l1 l2 : list pyval) (rest : dict) :
  List.length l1 = List.length l2 ->
  (firstn 10 l1 = firstn 10 l2 ->
   format_artwork_response (("data", VList l1) :: rest)
   = format_artwork_response (("data", VList l2) :: rest)
   /\ format_agent_response (("data", VList l1) :: rest)
      = format_agent_response (("data", VList l2) :: rest)
   /\ format_exhibition_response (("data", VList l1) :: rest)
      = format_exhibition_response (("data", VList l2) :: rest))
  /\ (firstn 20 l1 = firstn 20 l2 ->
      format_gallery_response (("data", VList l1) :: rest)
      = format_gallery_response (("data", VList l2) :: rest)).
Proof.
  intros Hlength.
  assert (Hempty : is_empty l1 = is_empty l2).
  { destruct l1, l2; simpl in *; congruence. }
  unfold format_artwork_response, format_agent_response,
    format_exhibition_response, format_gallery_response, with_total, len.
  cbn [dict_get String.eqb Ascii.eqb Bool.eqb as_list].
  rewrite Hempty, Hlength.
  split; [intros -> | intros ->]; repeat split.
Qed.

Lemma records_after_the_cap_are_not_read_witness :
  format_agent_response
    [("data", VList (numbered_records 10 ++ [VNone])%list)]
  = format_agent_response
      [("data", VList (numbered_records 10 ++ [VDict []])%list)].
Proof.
  apply (records_after_the_cap_are_not_read
           (numbered_records 10 ++ [VNone]) (numbered_records 10 ++ [VDict []])
           []); reflexivity.
Defined.

(** ** Response Renderer: the pagination value *)

(** X16: a [pagination] that is present but is not an object (a null, for
    one) makes every renderer raise, although the records render: for a
    non-empty [data], the result is the exception of the first record that
    fails, or else the AttributeError of calling [.get] on the pagination
    value; no text is returned. *)
Theorem pagination_must_be_an_object (data : dict) (d v : pyval) :
  dict_get "data" data = Some d ->
  as_list d <> [] ->
  dict_get "pagination" data = Some v ->
  ~ is_dict v ->
  format_artwork_response data
  = match for_each artwork_text (firstn 10 (as_list d)) with
    | Return _ => Raise (no_get v)
    | Raise e => Raise e
    end
  /\ format_agent_response data
     = match for_each agent_text (firstn 10 (as_list d)) with
       | Return _ => Raise (no_get v)
       | Raise e => Raise e
       end
  /\ format_exhibition_response data
     = match for_each exhibition_text (firstn 10 (as_list d)) with
       | Return _ => Raise (no_get v)
       | Raise e => Raise e
       end
  /\ format_gallery_response data
     = match for_each gallery_text (firstn 20 (as_list d)) with
       | Return _ => Raise (no_get v)
       | Raise e => Raise e
       end.
Proof.
  intros Hdata Hrecords Hpagination Hv.
  unfold format_artwork_response, format_agent_response,
    format_exhibition_response, format_gallery_response, with_total.
  rewrite Hdata, Hpagination.
  destruct (as_list d) as [| r l]; [contradiction |]. cbn [is_empty].
  repeat split;
    match goal with
    | |- context [for_each ?f ?l] => destruct (for_each f l)
    end; cbn [bind]; try reflexivity;
    destruct v; try reflexivity; exfalso; apply Hv; exact I.
Qed.

Lemma pagination_must_be_an_object_witness :
  format_gallery_response
    [("data", VList [VDict [("id", VInt 2)]]); ("pagination", VNone)]
  = Raise (AttributeError "'NoneType' object has no attribute 'get'").
Proof.
  apply (pagination_must_be_an_object
           [("data", VList [VDict [("id", VInt 2)]]); ("pagination", VNone)]
           (VList [VDict [("id", VInt 2)]]) VNone).
  - reflexivity.
  - discriminate.
  - reflexivity.
  - intros H. exact H.
Defined.

(** ** Response Renderer: the cross-entity search *)

Lemma slice_to_length {A : Type} (n : Z) (l : list A) :
  (0 <= n -> len (slice_to n l) = Z.min n (len l))
  /\ (n < 0 -> len (slice_to n l) = Z.max 0 (len l + n)).
Proof.
  unfold slice_to, len. split; intros Hn.
  - replace (n <? 0) with false by (symmetry; apply Z.ltb_ge; lia).
    rewrite length_firstn. lia.
  - replace (n <? 0) with true by (symmetry; apply Z.ltb_lt; lia).
    rewrite length_firstn. lia.
Qed.

(** X17: for a list of records and an integer cap, the renderer of
    [search_all] writes one line per record of [data[:cap]] and its summary
    counts exactly those lines: the first [cap] records when [cap] is not
    negative, none for [cap = 0], and all but the last [-cap] when [cap] is
    negative. *)
Theorem mixed_summary_counts_rendered_lines (data : dict) (l : list pyval)
    (cap : Z) (pagination : dict) (lines : list string) :
  dict_get "data" data = Some (VList l) ->
  l <> [] ->
  dict_get "pagination" data = Some (VDict pagination) ->
  for_each mixed_text (slice_to cap l) = Return lines ->
  format_mixed_response data (VInt cap)
  = Return (join nl lines ++ nl ++ nl ++ "Showing " ++ Z_to_string (len lines)
            ++ " of " ++ py_str (get_or pagination "total" (VInt 0))
            ++ " total results")
  /\ rendered_by mixed_text (slice_to cap l) lines
  /\ (0 <= cap -> len lines = Z.min cap (len l))
  /\ (cap < 0 -> len lines = Z.max 0 (len l + cap)).
Proof.
  intros Hdata Hl Hpagination Hlines.
  pose proof (for_each_rendered_by _ _ _ Hlines) as Hrendered.
  assert (Hlen : len lines = len (slice_to cap l)).
  { unfold len. now rewrite (Forall2_length Hrendered). }
  split; [| split; [exact Hrendered |]].
  - unfold format_mixed_response. rewrite Hdata, Hpagination.
    destruct l as [| r l']; [contradiction |].
    cbn [truthy negb sliced_items as_index bind]. now rewrite Hlines.
  - rewrite Hlen. apply slice_to_length.
Qed.

Lemma mixed_summary_counts_rendered_lines_witness :
  format_mixed_response
    [("data", VList (numbered_records 3));
     ("pagination", VDict [("total", VInt 37)])] (VInt (-1))
  = Return ("**Untitled** (Type: unknown, ID: 1)" ++ nl
            ++ "**Untitled** (Type: unknown, ID: 2)" ++ nl ++ nl
            ++ "Showing 2 of 37 total results").
Proof.
  apply (mixed_summary_counts_rendered_lines
           [("data", VList (numbered_records 3));
            ("pagination", VDict [("total", VInt 37)])]
           (numbered_records 3) (-1) [("total", VInt 37)]
           ["**Untitled** (Type: unknown, ID: 1)";
            "**Untitled** (Type: unknown, ID: 2)"]).
  - reflexivity.
  - discriminate.
  - reflexivity.
  - reflexivity.
Defined.

(** ** Response Renderer: fields of a record *)

(** X18: the default text of a field stands in for an absent key only.  For
    an agent whose description is a string, an absent [death_date] is shown as
    "Death: Unknown" and a [death_date] that is present and null is shown as
    "Death: None"; the same holds for [birth_date]. *)
Theorem null_fields_are_shown_as_None (d : dict) (s : string) :
  agent_description d = VStr s ->
  exists block,
    agent_text (VDict d) = Return block
    /\ (dict_get "death_date" d = None ->
        contains block (nl ++ "Death: Unknown" ++ nl))
    /\ (dict_get "death_date" d = Some VNone ->
        contains block (nl ++ "Death: None" ++ nl))
    /\ (dict_get "birth_date" d = None ->
        contains block (nl ++ "Birth: Unknown" ++ nl))
    /\ (dict_get "birth_date" d = Some VNone ->
        contains block (nl ++ "Birth: None" ++ nl)).
Proof.
  unfold agent_description. intros Hdescription.
  unfold agent_text. cbn [py_get bind].
  rewrite Hdescription, description_field_str. cbn [bind].
  eexists. split; [reflexivity |].
  change (nl ++ "Death: Unknown" ++ nl) with (nl ++ "Death: " ++ "Unknown" ++ nl).
  change (nl ++ "Death: None" ++ nl) with (nl ++ "Death: " ++ "None" ++ nl).
  change (nl ++ "Birth: Unknown" ++ nl) with (nl ++ "Birth: " ++ "Unknown" ++ nl).
  change (nl ++ "Birth: None" ++ nl) with (nl ++ "Birth: " ++ "None" ++ nl).
  repeat split; intros Hfield;
    match goal with
    | |- context [get_or d ?k ?dflt] =>
        match type of Hfield with
        | dict_get k d = _ =>
            let H := fresh in
            assert (H : get_or d k dflt = match dict_get k d with
                                          | Some x => x
                                          | None => dflt
                                          end) by reflexivity;
            rewrite Hfield in H; rewrite H
        end
    end;
    repeat first [apply contains_line | apply contains_skip].
Qed.

Lemma null_fields_are_shown_as_None_witness :
  exists block,
    agent_text (VDict [("title", VStr "Alma Thomas"); ("death_date", VNone)])
    = Return block
    /\ contains block (nl ++ "Death: None" ++ nl).
Proof.
  destruct (null_fields_are_shown_as_None
              [("title", VStr "Alma Thomas"); ("death_date", VNone)]
              "No description available" eq_refl)
    as (block & Hblock & _ & Hnull & _).
  exists block. split; [exact Hblock | exact (Hnull eq_refl)].
Defined.

(** X19: a gallery is shown as closed exactly when its [is_closed] field is
    truthy: the block of every gallery object ends with the line
    "Status: Closed" in that case and with "Status: Open" otherwise, which
    covers a field that is absent, null or false. *)
Theorem gallery_status_follows_is_closed (d : dict) :
  exists block,
    gallery_text (VDict d) = Return block
    /\ (truthy (get_or d "is_closed" (VBool false)) = true ->
        ends_with block ("Status: Closed" ++ nl))
    /\ (truthy (get_or d "is_closed" (VBool false)) = false ->
        ends_with block ("Status: Open" ++ nl))
    /\ (null_or_absent (dict_get "is_closed" d) ->
        ends_with block ("Status: Open" ++ nl)).
Proof.
  unfold gallery_text. cbn [py_get bind].
  eexists. split; [reflexivity |].
  assert (Hends : forall status,
            ends_with
              (nl ++ "**" ++ py_str (get_or d "title" (VStr "Unknown Gallery"))
               ++ "**" ++ nl ++ "ID: " ++ py_str (get_or d "id" (VStr "Unknown"))
               ++ nl ++ "Gallery Number: "
               ++ py_str (get_or d "number" (VStr "Unknown")) ++ nl
               ++ "Floor: " ++ py_str (get_or d "floor" (VStr "Unknown")) ++ nl
               ++ "Status: " ++ status ++ nl)
              ("Status: " ++ status ++ nl)).
  { intros status. eexists. rewrite <- !append_assoc. reflexivity. }
  split; [| split].
  - intros ->. apply (Hends "Closed").
  - intros ->. apply (Hends "Open").
  - intros [Hfield | Hfield]; unfold get_or; rewrite Hfield; apply (Hends "Open").
Qed.

(** ** Dispatcher: where an error reply comes from *)

Lemma py_get_builtin x k dflt e : py_get x k dflt = Raise e -> builtin e.
Proof. destruct x; simpl; intros [= <-]; exact I. Qed.

Lemma for_each_builtin {A B : Type} (f : A -> outcome B) l e :
  (forall x e', f x = Raise e' -> builtin e') ->
  for_each f l = Raise e -> builtin e.
Proof.
  intros Hf. induction l as [| a l IH]; simpl; [discriminate |].
  destruct (f a) as [b | e0] eqn:Ha; simpl.
  - destruct (for_each f l); simpl; [discriminate |].
    intros [= <-]. now apply IH.
  - intros [= <-]. exact (Hf _ _ Ha).
Qed.

Lemma exhibition_text_builtin v e : exhibition_text v = Raise e -> builtin e.
Proof.
  destruct v; try (simpl; intros [= <-]; exact I).
  unfold exhibition_text. cbn [py_get bind].
  destruct (description_field _) as [shown | e0] eqn:Hshown; cbn [bind].
  - destruct (truthy (get_or d "web_url" VNone)) eqn:Hurl;
      [rewrite (py_item_truthy _ _ Hurl) |]; cbn [bind]; discriminate.
  - intros [= <-]. exact (description_field_builtin _ _ Hshown).
Qed.

Lemma gallery_text_builtin v e : gallery_text v = Raise e -> builtin e.
Proof. destruct v; simpl; intros [= <-]; exact I. Qed.

Lemma mixed_text_builtin v e : mixed_text v = Raise e -> builtin e.
Proof. destruct v; simpl; intros [= <-]; exact I. Qed.

Lemma with_total_builtin data count result e :
  with_total data count result = Raise e -> builtin e.
Proof.
  unfold with_total. destruct (dict_get "pagination" data) as [v |];
    [| discriminate].
  destruct v; simpl; intros [= <-]; exact I.
Qed.

Lemma listing_renderer_builtin f cap none_text empty_text data e :
  (forall x e', f x = Raise e' -> builtin e') ->
  (match dict_get "data" data with
   | None => Return none_text
   | Some d =>
       if is_empty (as_list d) then Return empty_text
       else result <- for_each f (firstn cap (as_list d)) ;;
            result <- with_total data (len (as_list d)) result ;;
            Return (join separator result)
   end) = Raise e -> builtin e.
Proof.
  intros Hf. destruct (dict_get "data" data) as [d |]; [| discriminate].
  destruct (is_empty (as_list d)); [discriminate |].
  destruct (for_each f (firstn cap (as_list d))) as [blocks | e0] eqn:Hblocks;
    cbn [bind].
  - destruct (with_total data (len (as_list d)) blocks) as [result | e1]
      eqn:Hresult; cbn [bind]; [discriminate |].
    intros [= <-]. exact (with_total_builtin _ _ _ _ Hresult).
  - intros [= <-]. exact (for_each_builtin _ _ _ Hf Hblocks).
Qed.

Lemma renderers_raise_builtin data e :
  (format_artwork_response data = Raise e -> builtin e)
  /\ (format_agent_response data = Raise e -> builtin e)
  /\ (format_exhibition_response data = Raise e -> builtin e)
  /\ (format_gallery_response data = Raise e -> builtin e)
  /\ (forall limit, format_mixed_response data limit = Raise e -> builtin e).
Proof.
  split; [| split; [| split; [| split]]].
  - unfold format_artwork_response.
    destruct (dict_get "data" data) as [d |]; [| discriminate].
    destruct (is_empty (as_list d)); [discriminate |].
    destruct (for_each artwork_text _) as [blocks | e0] eqn:Hblocks; cbn [bind].
    + destruct (dict_get "pagination" data) as [v |]; [| discriminate].
      destruct v; simpl; intros [= <-]; exact I.
    + intros [= <-].
      exact (for_each_builtin _ _ _ artwork_text_builtin Hblocks).
  - exact (listing_renderer_builtin agent_text 10%nat "No agent data found."
             "No agents found." data e agent_text_builtin).
  - exact (listing_renderer_builtin exhibition_text 10%nat "No exhibition data found."
             "No exhibitions found." data e exhibition_text_builtin).
  - exact (listing_renderer_builtin gallery_text 20%nat "No gallery data found."
             "No galleries found." data e gallery_text_builtin).
  - intros limit. unfold format_mixed_response.
    destruct (dict_get "data" data) as [d |]; [| discriminate].
    destruct (negb (truthy d)); [discriminate |].
    destruct (sliced_items d limit) as [items | e0] eqn:Hitems; cbn [bind].
    + destruct (for_each mixed_text items) as [results | e1] eqn:Hresults;
        cbn [bind].
      * destruct (dict_get "pagination" data) as [v |]; [| discriminate].
        destruct v; simpl; intros [= <-]; exact I.
      * intros [= <-].
        exact (for_each_builtin _ _ _ mixed_text_builtin Hresults).
    + intros [= <-]. revert Hitems. unfold sliced_items.
      destruct d; try (intros [= <-]; exact I);
        destruct limit; simpl; intros [= <-]; exact I.
Qed.

Lemma opens_a_block_app b post : opens_a_block b -> opens_a_block (b ++ post).
Proof. intros [b' ->]. exists (b' ++ post). now rewrite append_assoc. Qed.

Lemma opens_a_block_benign b : opens_a_block b -> benign b.
Proof. intros [b' ->]. unfold benign, nl. simpl. discriminate. Qed.

Lemma join_opens_a_block sep b bs :
  opens_a_block b -> opens_a_block (join sep (b :: bs)).
Proof.
  intros Hb. destruct bs as [| b2 bs]; [exact Hb |].
  change (join sep (b :: b2 :: bs)) with (b ++ sep ++ join sep (b2 :: bs)).
  now apply opens_a_block_app.
Qed.

Lemma blocks_open (f : pyval -> outcome string) :
  (forall r b, f r = Return b -> opens_a_block b) ->
  forall cap r l blocks,
    for_each f (firstn (S cap) (r :: l)) = Return blocks ->
    exists b bs, blocks = b :: bs /\ opens_a_block b.
Proof.
  intros Hf cap r l blocks. cbn [firstn for_each].
  destruct (f r) as [b |] eqn:Hr; cbn [bind]; [| discriminate].
  destruct (for_each f (firstn cap l)) as [bs |]; cbn [bind]; [| discriminate].
  intros H. apply Return_inj in H. subst. exists b, bs.
  split; [reflexivity | exact (Hf _ _ Hr)].
Qed.

Lemma artwork_text_opens r b : artwork_text r = Return b -> opens_a_block b.
Proof.
  destruct r; try discriminate.
  unfold artwork_text. cbn [py_get bind].
  destruct (description_field _) as [shown |]; cbn [bind]; [| discriminate].
  destruct (truthy (get_or d "image_id" VNone)) eqn:Himage;
    [rewrite (py_item_truthy _ _ Himage) |];
    (destruct (truthy (get_or d "id" VNone)) eqn:Hid;
     [rewrite (py_item_truthy _ _ Hid) |]);
    cbn [bind]; intros H; apply Return_inj in H; subst b;
    repeat apply opens_a_block_app; eexists; reflexivity.
Qed.

Lemma agent_text_opens r b : agent_text r = Return b -> opens_a_block b.
Proof.
  destruct r; try discriminate.
  unfold agent_text. cbn [py_get bind].
  destruct (description_field _) as [shown |]; cbn [bind]; [| discriminate].
  intros H; apply Return_inj in H; subst b. eexists; reflexivity.
Qed.

Lemma exhibition_text_opens r b :
  exhibition_text r = Return b -> opens_a_block b.
Proof.
  destruct r; try discriminate.
  unfold exhibition_text. cbn [py_get bind].
  destruct (description_field _) as [shown |]; cbn [bind]; [| discriminate].
  destruct (truthy (get_or d "web_url" VNone)) eqn:Hurl;
    [rewrite (py_item_truthy _ _ Hurl) |];
    cbn [bind]; intros H; apply Return_inj in H; subst b;
    repeat apply opens_a_block_app; eexists; reflexivity.
Qed.

Lemma gallery_text_opens r b : gallery_text r = Return b -> opens_a_block b.
Proof.
  destruct r; try discriminate.
  unfold gallery_text. cbn [py_get bind].
  intros H; apply Return_inj in H; subst b. eexists; reflexivity.
Qed.

Lemma listing_renderer_benign (f : pyval -> outcome string) cap
    none_text empty_text data t :
  (forall r b, f r = Return b -> opens_a_block b) ->
  benign none_text -> benign empty_text ->
  (match dict_get "data" data with
   | None => Return none_text
   | Some d =>
       if is_empty (as_list d) then Return empty_text
       else result <- for_each f (firstn (S cap) (as_list d)) ;;
            result <- with_total data (len (as_list d)) result ;;
            Return (join separator result)
   end) = Return t -> benign t.
Proof.
  intros Hf Hnone Hempty.
  destruct (dict_get "data" data) as [d |];
    [| intros H; apply Return_inj in H; now subst].
  destruct (as_list d) as [| r l] eqn:Hrecords; cbn [is_empty];
    [intros H; apply Return_inj in H; now subst |].
  destruct (for_each f (firstn (S cap) (r :: l))) as [blocks |] eqn:Hblocks;
    cbn [bind]; [| discriminate].
  destruct (blocks_open f Hf _ _ _ _ Hblocks) as (b & bs & -> & Hb).
  destruct (with_total data _ (b :: bs)) as [result |] eqn:Hresult;
    cbn [bind]; [| discriminate].
  destruct (with_total_shape _ _ _ _ Hresult) as (summary & -> & _).
  intros H. apply Return_inj in H. subst t.
  apply opens_a_block_benign. now apply join_opens_a_block.
Qed.

Lemma renderers_return_benign data t :
  (format_artwork_response data = Return t -> benign t)
  /\ (format_agent_response data = Return t -> benign t)
  /\ (format_exhibition_response data = Return t -> benign t)
  /\ (format_gallery_response data = Return t -> benign t)
  /\ (forall limit, format_mixed_response data limit = Return t -> benign t).
Proof.
  assert (Hletter : forall text : string,
            benign (String "N" text)) by (intros text; simpl; discriminate).
  split; [| split; [| split; [| split]]].
  - unfold format_artwork_response.
    destruct (dict_get "data" data) as [d |];
      [| intros H; apply Return_inj in H; subst; apply Hletter].
    destruct (as_list d) as [| r l] eqn:Hrecords; cbn [is_empty];
      [intros H; apply Return_inj in H; subst; apply Hletter |].
    destruct (for_each artwork_text (firstn 10 (r :: l))) as [blocks |]
      eqn:Hblocks; cbn [bind]; [| discriminate].
    destruct (blocks_open artwork_text artwork_text_opens _ _ _ _ Hblocks)
      as (b & bs & -> & Hb).
    destruct (dict_get "pagination" data) as [v |].
    + destruct v; cbn [py_get bind]; try discriminate.
      intros H. apply Return_inj in H. subst t.
      apply opens_a_block_benign. unfold list_append.
      change ((b :: bs) ++ ?x)%list with (b :: (bs ++ x)%list).
      now apply join_opens_a_block.
    + cbn [bind]. intros H. apply Return_inj in H. subst t.
      apply opens_a_block_benign. now apply join_opens_a_block.
  - apply (listing_renderer_benign agent_text 9 "No agent data found."
             "No agents found." data t agent_text_opens);
      apply Hletter.
  - apply (listing_renderer_benign exhibition_text 9
             "No exhibition data found." "No exhibitions found." data t
             exhibition_text_opens); apply Hletter.
  - apply (listing_renderer_benign gallery_text 19 "No gallery data found."
             "No galleries found." data t gallery_text_opens); apply Hletter.
  - intros limit. unfold format_mixed_response.
    destruct (dict_get "data" data) as [d |];
      [| intros H; apply Return_inj in H; subst; apply Hletter].
    destruct (negb (truthy d));
      [intros H; apply Return_inj in H; subst; apply Hletter |].
    destruct (sliced_items d limit) as [items |]; cbn [bind]; [| discriminate].
    destruct (for_each mixed_text items) as [results |] eqn:Hresults;
      cbn [bind]; [| discriminate].
    assert (Hjoin : join nl results = ""
                    \/ exists rest, join nl results = String "*" rest).
    { destruct items as [| item items]; cbn [for_each] in Hresults.
      - apply Return_inj in Hresults. subst. now left.
      - right.
        destruct (mixed_text item) as [line |] eqn:Hline;
          cbn [bind] in Hresults; [| discriminate].
        destruct (for_each mixed_text items) as [others |];
          cbn [bind] in Hresults; [| discriminate].
        apply Return_inj in Hresults. subst results.
        assert (Hstar : exists rest, line = String "*" rest).
        { destruct item; try discriminate.
          unfold mixed_text in Hline. cbn [py_get bind] in Hline.
          apply Return_inj in Hline. subst line. eexists. reflexivity. }
        destruct Hstar as [rest ->].
        destruct others; simpl; eexists; reflexivity. }
    destruct (dict_get "pagination" data) as [v |].
    + destruct v; cbn [py_get bind]; try discriminate.
      intros H. apply Return_inj in H. subst t.
      destruct Hjoin as [-> | [rest ->]]; simpl; discriminate.
    + intros H. apply Return_inj in H. subst t.
      destruct Hjoin as [-> | [rest ->]]; simpl; [exact I | discriminate].
Qed.

Lemma text_reply_inj a b :
  Return (text_reply a) = Return (text_reply b) -> a = b.
Proof. now intros [= ->]. Qed.

Lemma benign_not_error t m : benign t -> t <> "Error: " ++ m.
Proof. intros Hbenign ->. simpl in Hbenign. now apply Hbenign. Qed.

(** The reply of one adapter call followed by a renderer that is well
    behaved: "Error: ..." only when the call failed. *)
Lemma fetch_and_render_error remote endpoint p render sent m :
  (forall d t, render d = Return t -> benign t) ->
  (forall d e, render d = Raise e -> builtin e) ->
  match fetch_and_render remote endpoint p render sent with
  | (Return content, _) => content
  | (Raise (AICAPIError msg), _) => text_reply ("Error: " ++ msg)
  | (Raise e, _) => text_reply ("Unexpected error: " ++ exc_str e)
  end = text_reply ("Error: " ++ m) ->
  is_failure (remote (sent_request endpoint p)).
Proof.
  intros Hbenign Hbuiltin.
  unfold fetch_and_render, io_bind, lift, io_ret.
  rewrite make_api_request_run.
  destruct (remote (sent_request endpoint p)) as [body | | |];
    try (intros _; exact I).
  destruct (render body) as [t | e] eqn:Hrender.
  - intros H. apply (f_equal (@Return (list TextContent))) in H.
    apply text_reply_inj in H.
    now apply (benign_not_error _ m (Hbenign _ _ Hrender)) in H.
  - pose proof (Hbuiltin _ _ Hrender) as He.
    destruct e; try contradiction; intros [= H]; discriminate H.
Qed.

(** X20: a reply that begins with "Error: " is produced only when the remote
    call of the invocation failed: no rendered text, no "Unknown tool" reply
    and no failure of a renderer or of the limit can take that form. *)
Theorem error_replies_come_from_the_remote remote n arguments sent m :
  fst (call_tool remote n arguments sent)
  = Return (text_reply ("Error: " ++ m)) ->
  exists rq,
    snd (call_tool remote n arguments sent) = (sent ++ [rq])%list
    /\ is_failure (remote rq).
Proof.
  intros Hreply.
  destruct (in_dec string_dec n tool_names) as [Hin | Hout].
  - assert (Hrun : exists endpoint p render,
               call_tool_body remote n arguments sent
               = fetch_and_render remote endpoint p render sent
               /\ (forall d t, render d = Return t -> benign t)
               /\ (forall d e, render d = Raise e -> builtin e)).
    { apply tool_names_split in Hin. destruct Hin as [Hin | Hin].
      - rewrite (listing_branch_eq _ _ _ Hin).
        destruct (min_max_results
                    (get_or arguments "limit" (VInt (default_limit n))))
          as [limit | e] eqn:Hmin.
        + exists (endpoint_of n), (Some (params_of n arguments limit)),
            (fun data => render_of n data limit).
          split; [unfold listing_branch, io_bind at 1, lift at 1;
                  now rewrite Hmin |].
          split; intros d x; unfold render_of;
            repeat match goal with
                   | |- context [String.eqb n ?s] => destruct (String.eqb n s)
                   end;
            first [apply renderers_return_benign | apply renderers_raise_builtin].
        + exfalso. revert Hreply. unfold call_tool.
          rewrite (listing_branch_eq _ _ _ Hin).
          unfold listing_branch, io_bind, lift. rewrite Hmin.
          pose proof (min_max_results_builtin _ _ Hmin) as He.
          destruct e; try contradiction; intros [= H]; discriminate H.
      - exists (fetch_prefix n
                ++ py_str (get_or arguments (id_argument n) VNone)),
          (fetch_params n arguments), (fetch_render n).
        split; [now rewrite (fetch_branch_eq _ _ _ Hin) |].
        split; intros d x; unfold fetch_render;
          repeat match goal with
                 | |- context [String.eqb n ?s] => destruct (String.eqb n s)
                 end;
          first [apply renderers_return_benign | apply renderers_raise_builtin]. }
    destruct Hrun as (endpoint & p & render & Hrun & Hbenign & Hbuiltin).
    exists (sent_request endpoint p). split.
    + now rewrite call_tool_sent, Hrun, fetch_and_render_sent.
    + apply (fetch_and_render_error remote endpoint p render sent m
               Hbenign Hbuiltin).
      revert Hreply. unfold call_tool. rewrite Hrun.
      destruct (fetch_and_render remote endpoint p render sent) as [[c | e] s].
      * now intros [= ->].
      * destruct e; now intros [= ->].
  - exfalso. revert Hreply. unfold call_tool.
    rewrite (unknown_tool_body _ _ _ Hout). intros [= H]; discriminate H.
Qed.

Lemma error_replies_come_from_the_remote_witness :
  exists rq,
    snd (call_tool (fun _ => HTTPStatusError 500 "down") "search_agents"
           [("query", VStr "Monet")] []) = [rq]
    /\ is_failure (HTTPStatusError 500 "down").
Proof.
  exact (error_replies_come_from_the_remote
           (fun _ => HTTPStatusError 500 "down") "search_agents"
           [("query", VStr "Monet")] [] "API request failed: 500 - down"
           eq_refl).
Defined.

(** ** The connection test *)

Ltac run_test :=
  unfold test_main, test_api_connection, test_api_connection_body,
    attempt_bind, attempt_ret, of_outcome, of_io, print_total, lift;
  rewrite ?make_api_request_run.

(** X21: when the first call of the connection test fails, the test stops
    there: it reports failure without raising, only the Monet search has been
    sent, and [main] exits with status 1. *)
Theorem connection_test_stops_at_a_failed_search remote sent :
  is_failure (remote artwork_search) ->
  test_api_connection remote sent = (false, (sent ++ [artwork_search])%list)
  /\ test_main remote sent = (1, (sent ++ [artwork_search])%list).
Proof.
  intros Hfailure. run_test.
  change (sent_request "artworks/search"
            (Some [("q", VStr "Monet"); ("limit", VInt 3)]))
    with artwork_search.
  destruct (remote artwork_search); [contradiction | | |]; split; reflexivity.
Qed.

Lemma connection_test_stops_at_a_failed_search_witness :
  test_main (fun _ => RequestError "no route to host") []
  = (1, [artwork_search]).
Proof.
  apply (connection_test_stops_at_a_failed_search
           (fun _ => RequestError "no route to host") []).
  exact I.
Defined.

Lemma test_api_connection_body_eq remote :
  test_api_connection_body remote
  = (data <-- of_io (make_api_request remote "artworks/search"
                       (Some [("q", VStr "Monet"); ("limit", VInt 3)])) ;;
     _ <-- print_total data ;;
     _ <-- test_fetch remote data ;;
     test_tail remote).
Proof. reflexivity. Qed.

Ltac step remote :=
  first
    [ rewrite make_api_request_run
    | match goal with
      | |- context [match remote ?r with _ => _ end] => destruct (remote r)
      | |- context [match py_get ?x ?k ?d with _ => _ end] =>
          destruct (py_get x k d)
      end ];
  cbv beta iota zeta.

Lemma test_tail_run remote sent :
  exists new o,
    test_tail remote sent = (o, (sent ++ new)%list)
    /\ (List.length new <= 3)%nat
    /\ (o = None
        \/ (o = Some true
            /\ new = [agent_search; gallery_listing; exhibition_search])).
Proof.
  unfold test_tail, print_total, attempt_bind, attempt_ret, of_outcome, of_io,
    lift.
  repeat step remote;
    rewrite <- ?app_assoc; cbn [app];
    eexists; eexists; (split; [reflexivity |]);
    (split; [cbn [List.length]; lia |]);
    first [left; reflexivity | right; split; reflexivity].
Qed.

Lemma test_fetch_run remote data sent :
  exists new o,
    test_fetch remote data sent = (o, (sent ++ new)%list)
    /\ (List.length new <= 1)%nat.
Proof.
  assert (Hnothing : forall o : option unit,
            exists new o',
              (o, sent) = (o', (sent ++ new)%list)
              /\ (List.length new <= 1)%nat).
  { intros o. exists [], o. rewrite app_nil_r. split; [reflexivity | simpl; lia]. }
  unfold test_fetch, attempt_bind, attempt_ret, of_outcome, of_io, lift.
  destruct (truthy (get_or data "data" VNone)); [| apply Hnothing].
  destruct (py_len (get_or data "data" VNone)) as [n |]; [| apply Hnothing].
  destruct (n >? 0); [| apply Hnothing].
  destruct (py_first (get_or data "data" VNone)) as [first |];
    [| apply Hnothing].
  destruct (py_get first "id" VNone) as [artwork_id |]; [| apply Hnothing].
  repeat step remote;
    eexists; eexists; (split; [reflexivity | simpl; lia]).
Qed.

Lemma test_api_connection_run remote sent :
  exists success rest,
    test_api_connection remote sent
    = (success, (sent ++ artwork_search :: rest)%list)
    /\ (List.length rest <= 4)%nat
    /\ (success = true ->
        exists middle,
          rest = (middle
                  ++ [agent_search; gallery_listing; exhibition_search])%list
          /\ (List.length middle <= 1)%nat).
Proof.
  unfold test_api_connection. rewrite test_api_connection_body_eq.
  unfold attempt_bind at 1. unfold of_io at 1.
  rewrite make_api_request_run.
  change (sent_request "artworks/search"
            (Some [("q", VStr "Monet"); ("limit", VInt 3)]))
    with artwork_search.
  assert (Hstop : exists success rest,
            (false, (sent ++ [artwork_search])%list)
            = (success, (sent ++ artwork_search :: rest)%list)
            /\ (List.length rest <= 4)%nat
            /\ (success = true ->
                exists middle,
                  rest = (middle ++ [agent_search; gallery_listing;
                                     exhibition_search])%list
                  /\ (List.length middle <= 1)%nat)).
  { exists false, []. repeat split; [simpl; lia | discriminate]. }
  destruct (remote artwork_search) as [data | | |]; try exact Hstop.
  unfold attempt_bind at 1, print_total at 1, of_outcome, of_io, lift.
  destruct (py_get (get_or data "pagination" (VDict [])) "total" (VInt 0));
    try exact Hstop.
  unfold attempt_bind.
  destruct (test_fetch_run remote data (sent ++ [artwork_search]))
    as (middle & o & -> & Hmiddle).
  destruct o as [[] |].
  - destruct (test_tail_run remote ((sent ++ [artwork_search]) ++ middle))
      as (new & o & -> & Hnew & Ho).
    destruct Ho as [-> | [-> ->]].
    + exists false, (middle ++ new)%list.
      split; [now rewrite <- !app_assoc |].
      split; [rewrite length_app; lia | discriminate].
    + exists true,
        (middle ++ [agent_search; gallery_listing; exhibition_search])%list.
      split; [now rewrite <- !app_assoc |].
      split; [rewrite length_app; simpl; lia |].
      intros _. now exists middle.
  - exists false, middle.
    split; [now rewrite <- !app_assoc |].
    split; [lia | discriminate].
Qed.

(** X22: whatever the remote service does, the connection test returns a
    verdict, and [main] turns it into the exit status 0 or 1.  The Monet
    search is always sent first and at most four requests follow; a passing
    run ends with the agent search, the gallery listing and the exhibition
    search, in that order, after at most one retrieval. *)
Theorem connection_test_sends_its_steps_in_order remote sent :
  exists rest,
    snd (test_api_connection remote sent) = (sent ++ artwork_search :: rest)%list
    /\ (List.length rest <= 4)%nat
    /\ (fst (test_api_connection remote sent) = true ->
        exists middle,
          rest = (middle
                  ++ [agent_search; gallery_listing; exhibition_search])%list
          /\ (List.length middle <= 1)%nat)
    /\ test_main remote sent
       = (if fst (test_api_connection remote sent) then 0 else 1,
          snd (test_api_connection remote sent)).
Proof.
  unfold test_main.
  destruct (test_api_connection_run remote sent)
    as (success & rest & -> & Hlength & Hpass).
  exists rest. cbn [fst snd]. repeat split; assumption.
Qed.

Lemma test_tail_starts remote sent :
  exists rest o,
    test_tail remote sent = (o, (sent ++ agent_search :: rest)%list).
Proof.
  unfold test_tail, print_total, attempt_bind, attempt_ret, of_outcome, of_io,
    lift.
  repeat step remote;
    rewrite <- ?app_assoc; cbn [app];
    eexists; eexists; reflexivity.
Qed.

Lemma test_fetch_first remote data d l sent :
  dict_get "data" data = Some (VList (VDict d :: l)) ->
  exists o,
    test_fetch remote data sent
    = (o, (sent ++ [artwork_fetch (get_or d "id" VNone)])%list).
Proof.
  intros Hdata.
  assert (Hget : get_or data "data" VNone = VList (VDict d :: l))
    by (unfold get_or; now rewrite Hdata).
  assert (Hpositive : (len (VDict d :: l) >? 0) = true)
    by (unfold len; simpl List.length; apply Z.gtb_lt; lia).
  unfold test_fetch. rewrite !Hget. cbn [truthy py_len py_first].
  unfold attempt_bind, attempt_ret, of_outcome, of_io, lift.
  cbn [py_get]. cbv beta iota zeta. rewrite Hpositive.
  repeat step remote; eexists; reflexivity.
Qed.

Lemma test_fetch_skipped remote data sent :
  truthy (get_or data "data" VNone) = false ->
  test_fetch remote data sent = (Some tt, sent).
Proof. intros Hfalsy. unfold test_fetch. now rewrite Hfalsy. Qed.

Lemma test_after_search remote sent data :
  remote artwork_search = Json data ->
  countable data ->
  test_api_connection remote sent
  = match test_fetch remote data (sent ++ [artwork_search])%list with
    | (Some _, s) =>
        match test_tail remote s with
        | (Some success, s') => (success, s')
        | (None, s') => (false, s')
        end
    | (None, s) => (false, s)
    end.
Proof.
  intros Hsearch Hcountable.
  assert (Htotal : exists total,
            py_get (get_or data "pagination" (VDict [])) "total" (VInt 0)
            = Return total).
  { unfold countable in Hcountable. unfold get_or.
    destruct (dict_get "pagination" data) as [[] |]; try contradiction;
      eexists; reflexivity. }
  destruct Htotal as [total Htotal].
  unfold test_api_connection. rewrite test_api_connection_body_eq.
  unfold attempt_bind at 1, of_io at 1. rewrite make_api_request_run.
  change (sent_request "artworks/search"
            (Some [("q", VStr "Monet"); ("limit", VInt 3)]))
    with artwork_search.
  rewrite Hsearch.
  unfold attempt_bind at 1, print_total at 1, of_outcome, of_io, lift.
  rewrite Htotal. unfold attempt_bind.
  destruct (test_fetch remote data (sent ++ [artwork_search])%list)
    as [[[] |] s]; [| reflexivity].
  now destruct (test_tail remote s) as [[success |] s'].
Qed.

(** X23: the retrieval step of the connection test asks for the artwork whose
    id the first record of the search result carries, and is skipped when the
    search returned no record: the second request is then the agent
    search. *)
Theorem connection_test_fetches_the_first_artwork remote sent data :
  remote artwork_search = Json data ->
  countable data ->
  (forall d l,
     dict_get "data" data = Some (VList (VDict d :: l)) ->
     exists rest,
       snd (test_api_connection remote sent)
       = (sent ++ artwork_search :: artwork_fetch (get_or d "id" VNone)
               :: rest)%list)
  /\ (null_or_absent (dict_get "data" data)
      \/ dict_get "data" data = Some (VList []) ->
      exists rest,
        snd (test_api_connection remote sent)
        = (sent ++ artwork_search :: agent_search :: rest)%list).
Proof.
  intros Hsearch Hcountable.
  rewrite (test_after_search remote sent data Hsearch Hcountable).
  split.
  - intros d l Hdata.
    destruct (test_fetch_first remote data d l (sent ++ [artwork_search])%list
                Hdata) as [o ->].
    rewrite <- app_assoc. cbn [app].
    destruct o as [[] |]; [| now exists []].
    destruct (test_tail_starts
                remote
                (sent ++ [artwork_search; artwork_fetch (get_or d "id" VNone)]))
      as (rest & o & ->).
    exists (agent_search :: rest). rewrite <- app_assoc. now destruct o.
  - intros Hempty.
    rewrite test_fetch_skipped.
    + destruct (test_tail_starts remote (sent ++ [artwork_search]))
        as (rest & o & ->).
      exists rest. rewrite <- app_assoc. now destruct o.
    + unfold get_or. destruct Hempty as [[-> | ->] | ->]; reflexivity.
Qed.

Lemma connection_test_fetches_the_first_artwork_witness :
  exists rest,
    snd (test_api_connection
           (fun _ => Json [("data", VList [VDict [("id", VInt 16568)]])]) [])
    = artwork_search :: artwork_fetch (VInt 16568) :: rest.
Proof.
  destruct (connection_test_fetches_the_first_artwork
              (fun _ => Json [("data", VList [VDict [("id", VInt 16568)]])]) []
              [("data", VList [VDict [("id", VInt 16568)]])] eq_refl I)
    as [Hfirst _].
  exact (Hfirst [("id", VInt 16568)] [] eq_refl).
Defined.

Lemma test_tail_pass remote sent s :
  test_tail remote sent = (Some true, s) ->
  s = (sent ++ [agent_search; gallery_listing; exhibition_search])%list
  /\ ~ is_failure (remote agent_search)
  /\ ~ is_failure (remote gallery_listing)
  /\ ~ is_failure (remote exhibition_search).
Proof.
  unfold test_tail, print_total, attempt_bind, attempt_ret, of_outcome, of_io,
    lift.
  rewrite make_api_request_run.
  change (sent_request "agents/search"
            (Some [("q", VStr "Picasso"); ("limit", VInt 1)]))
    with agent_search.
  destruct (remote agent_search) as [agents | | |]; cbv beta iota zeta;
    try discriminate.
  destruct (py_get _ "total" (VInt 0)); cbv beta iota zeta; try discriminate.
  rewrite make_api_request_run.
  change (sent_request "galleries" (Some [("limit", VInt 5)]))
    with gallery_listing.
  destruct (remote gallery_listing) as [galleries | | |]; cbv beta iota zeta;
    try discriminate.
  destruct (py_get _ "total" (VInt 0)); cbv beta iota zeta; try discriminate.
  rewrite make_api_request_run.
  change (sent_request "exhibitions/search"
            (Some [("q", VStr "impressionism"); ("limit", VInt 1)]))
    with exhibition_search.
  destruct (remote exhibition_search) as [exhibitions | | |];
    cbv beta iota zeta; try discriminate.
  destruct (py_get _ "total" (VInt 0)); cbv beta iota zeta; try discriminate.
  intros [= <-]. rewrite <- !app_assoc. cbn [app is_failure]. tauto.
Qed.

Lemma test_fetch_pass remote data sent s :
  test_fetch remote data sent = (Some tt, s) ->
  s = sent
  \/ exists artwork_id,
       s = (sent ++ [artwork_fetch artwork_id])%list
       /\ ~ is_failure (remote (artwork_fetch artwork_id)).
Proof.
  unfold test_fetch, attempt_bind, attempt_ret, of_outcome, of_io, lift.
  destruct (truthy (get_or data "data" VNone)); [| intros [= <-]; now left].
  destruct (py_len (get_or data "data" VNone)) as [n |]; [| discriminate].
  destruct (n >? 0); [| intros [= <-]; now left].
  destruct (py_first (get_or data "data" VNone)) as [first |];
    [| discriminate].
  destruct (py_get first "id" VNone) as [artwork_id |]; [| discriminate].
  rewrite make_api_request_run.
  change (sent_request ("artworks/" ++ py_str artwork_id) None)
    with (artwork_fetch artwork_id).
  destruct (remote (artwork_fetch artwork_id)) as [body | | |] eqn:Hfetch;
    cbv beta iota zeta; try discriminate.
  destruct (py_get _ "title" (VStr "Unknown")); cbv beta iota zeta;
    try discriminate.
  intros [= <-]. right. exists artwork_id. rewrite Hfetch. simpl. tauto.
Qed.

(** X24: a passing connection test means that every call it made was
    answered: when the verdict is [True], none of the requests it sent met a
    failure of the remote service. *)
Theorem a_passing_test_met_no_failure remote sent :
  fst (test_api_connection remote sent) = true ->
  exists new,
    snd (test_api_connection remote sent) = (sent ++ new)%list
    /\ (4 <= List.length new <= 5)%nat
    /\ Forall (fun rq => ~ is_failure (remote rq)) new.
Proof.
  destruct (test_api_connection remote sent) as [success final] eqn:Hrun.
  cbn [fst snd]. intros ->. revert Hrun.
  unfold test_api_connection. rewrite test_api_connection_body_eq.
  unfold attempt_bind at 1. unfold of_io at 1.
  rewrite make_api_request_run.
  change (sent_request "artworks/search"
            (Some [("q", VStr "Monet"); ("limit", VInt 3)]))
    with artwork_search.
  destruct (remote artwork_search) as [data | | |] eqn:Hsearch;
    try discriminate.
  unfold attempt_bind at 1, print_total at 1, of_outcome, of_io, lift.
  destruct (py_get (get_or data "pagination" (VDict [])) "total" (VInt 0));
    try discriminate.
  unfold attempt_bind.
  destruct (test_fetch remote data (sent ++ [artwork_search])%list)
    as [[[] |] s] eqn:Hfetch; [| discriminate].
  destruct (test_tail remote s) as [[[] |] s'] eqn:Htail; try discriminate.
  intros [= <-].
  apply test_tail_pass in Htail.
  destruct Htail as (-> & Hagent & Hgallery & Hexhibition).
  assert (Hfirst : ~ is_failure (remote artwork_search))
    by (rewrite Hsearch; simpl; tauto).
  apply test_fetch_pass in Hfetch.
  destruct Hfetch as [-> | (artwork_id & -> & Hartwork)].
  - exists [artwork_search; agent_search; gallery_listing; exhibition_search].
    split; [now rewrite <- app_assoc |]. split; [simpl; lia |].
    repeat constructor; assumption.
  - exists [artwork_search; artwork_fetch artwork_id; agent_search;
            gallery_listing; exhibition_search].
    split; [now rewrite <- !app_assoc |]. split; [simpl; lia |].
    repeat constructor; assumption.
Qed.

Lemma a_passing_test_met_no_failure_witness :
  exists new,
    snd (test_api_connection (fun _ => Json []) []) = new
    /\ (4 <= List.length new <= 5)%nat.
Proof.
  destruct (a_passing_test_met_no_failure (fun _ => Json []) [] eq_refl)
    as (new & Hsent & Hlength & _).
  exists new. split; [exact Hsent | exact Hlength].
Defined.

(** * The query and the description, through the dispatcher and the renderers *)

Lemma render_of_builtin n data limit e :
  render_of n data limit = Raise e -> builtin e.
Proof.
  unfold render_of.
  repeat match goal with
         | |- context [String.eqb n ?s] => destruct (String.eqb n s)
         end;
    apply renderers_raise_builtin.
Qed.

(** The reply of one adapter call followed by a renderer whose exceptions are
    built-in ones. *)
Lemma fetch_and_render_reply remote endpoint p render sent :
  (forall d e, render d = Raise e -> builtin e) ->
  match fetch_and_render remote endpoint p render sent with
  | (Return content, _) => Return content
  | (Raise (AICAPIError msg), _) => Return (text_reply ("Error: " ++ msg))
  | (Raise e, _) => Return (text_reply ("Unexpected error: " ++ exc_str e))
  end
  = Return (text_reply (reply_for render (remote (sent_request endpoint p)))).
Proof.
  intros Hbuiltin.
  unfold fetch_and_render, io_bind, lift, io_ret, reply_for.
  rewrite make_api_request_run.
  destruct (remote (sent_request endpoint p)) as [body | | |]; try reflexivity.
  destruct (render body) as [t | e] eqn:Hrender; [reflexivity |].
  pose proof (Hbuiltin _ _ Hrender) as He.
  destruct e; try contradiction; reflexivity.
Qed.

(** C2, amended: for each of the four search tools, when [query] is absent
    and [limit] is absent or an integer, the Dispatcher still calls the adapter
    exactly once, at the tool's endpoint, and the request carries no [q]
    parameter.  No validation message is produced: the reply is the one the
    pipeline gives for what the adapter met on that request, that is the
    rendering of the envelope, "Unexpected error: ..." when the rendering
    raises, or "Error: ..." with the adapter's message when the call failed. *)
Theorem missing_query_is_dropped remote name arguments sent :
  In name search_tools ->
  dict_get "query" arguments = None ->
  (dict_get "limit" arguments = None
   \/ exists z, dict_get "limit" arguments = Some (VInt z)) ->
  exists rq,
    snd (call_tool remote name arguments sent) = (sent ++ [rq])%list
    /\ url rq = BASE_URL ++ "/" ++ endpoint_of name
    /\ ~ In "q" (map fst (request_params rq))
    /\ exists n,
         outbound "limit" rq = Some (VInt n)
         /\ fst (call_tool remote name arguments sent)
            = Return (text_reply
                        (reply_for (fun body => render_of name body (VInt n))
                                   (remote rq))).
Proof.
  intros Hname Hquery Hlimit.
  assert (Hlisting : In name limit_tools).
  { simpl in *. intuition. }
  assert (Hmin : exists n,
             min_max_results (get_or arguments "limit" (VInt (default_limit name)))
             = Return (VInt n)).
  { unfold get_or. destruct Hlimit as [-> | [z ->]];
      eexists; apply min_max_results_int. }
  destruct Hmin as [n Hmin].
  assert (Hrun : call_tool_body remote name arguments sent
                 = fetch_and_render remote (endpoint_of name)
                     (Some (params_of name arguments (VInt n)))
                     (fun body => render_of name body (VInt n)) sent).
  { rewrite (listing_branch_eq _ _ _ Hlisting).
    unfold listing_branch, io_bind at 1, lift at 1. now rewrite Hmin. }
  exists (sent_request (endpoint_of name)
            (Some (params_of name arguments (VInt n)))).
  split; [now rewrite call_tool_sent, Hrun, fetch_and_render_sent |].
  assert (Hparams :
            request_params
              (sent_request (endpoint_of name)
                 (Some (params_of name arguments (VInt n))))
            = filter (fun kv => is_not_none (snd kv))
                (params_of name arguments (VInt n))).
  { unfold sent_request, request_params. cbn [params].
    now destruct (params_of name arguments (VInt n)). }
  split; [| split; [| exists n; split]].
  - simpl in Hname.
    repeat (destruct Hname as [<- | Hname]; [reflexivity |]). contradiction.
  - rewrite Hparams. unfold params_of, get_or. rewrite Hquery.
    simpl in Hname.
    repeat (destruct Hname as [<- | Hname];
            [simpl;
             repeat match goal with
                    | |- context [is_not_none ?v] => destruct (is_not_none v)
                    end;
             simpl; intuition discriminate |]).
    contradiction.
  - unfold outbound. rewrite Hparams. now apply filtered_limit.
  - unfold call_tool. rewrite Hrun.
    rewrite <- (fetch_and_render_reply remote (endpoint_of name)
                  (Some (params_of name arguments (VInt n)))
                  (fun body => render_of name body (VInt n)) sent).
    + destruct (fetch_and_render remote (endpoint_of name)
                  (Some (params_of name arguments (VInt n)))
                  (fun body => render_of name body (VInt n)) sent)
        as [[c | e] s]; [reflexivity |].
      now destruct e.
    + intros d e. apply render_of_builtin.
Qed.

Lemma missing_query_is_dropped_witness :
  exists rq,
    snd (call_tool (fun _ => Json []) "search_agents" [("limit", VInt 5)] [])
    = [rq]
    /\ url rq = "https://api.artic.edu/api/v1/agents/search"
    /\ ~ In "q" (map fst (request_params rq))
    /\ fst (call_tool (fun _ => Json []) "search_agents" [("limit", VInt 5)] [])
       = Return (text_reply "No agent data found.").
Proof.
  destruct (missing_query_is_dropped (fun _ => Json []) "search_agents"
              [("limit", VInt 5)] [])
    as (rq & Hsent & Hurl & Hq & n & _ & Hreply).
  - simpl. tauto.
  - reflexivity.
  - right. exists 5. reflexivity.
  - exists rq. split; [exact Hsent |]. split; [exact Hurl |].
    split; [exact Hq | exact Hreply].
Defined.

Lemma for_each_returns {A B : Type} (f : A -> outcome B) l :
  Forall (fun x => exists y, f x = Return y) l ->
  exists ys, for_each f l = Return ys.
Proof.
  induction 1 as [| x l [y Hy] _ [ys Hys]]; simpl.
  - now exists [].
  - rewrite Hy, Hys. now exists (y :: ys).
Qed.

Lemma rendered_by_In f records blocks r :
  rendered_by f records blocks -> In r records ->
  exists b, In b blocks /\ f r = Return b.
Proof.
  induction 1 as [| x b l bs Hx _ IH]; simpl; [contradiction |].
  intros [<- | Hin].
  - exists b. auto.
  - destruct (IH Hin) as (b' & Hb' & Hr). exists b'. auto.
Qed.

Lemma join_contains sep blocks b sub :
  In b blocks -> contains b sub -> contains (join sep blocks) sub.
Proof.
  induction blocks as [| p rest IH]; simpl; [contradiction |].
  intros [<- | Hin] Hsub.
  - destruct rest; [exact Hsub | now apply contains_app_l].
  - destruct rest as [| q rest']; [contradiction |].
    apply contains_skip, contains_skip. now apply IH.
Qed.

(** A text returned by a renderer holds the description line of every record
    it visits whose block holds it. *)
Lemma rendered_line (f : pyval -> outcome string) cap records blocks extra
    r b line :
  for_each f (firstn cap records) = Return blocks ->
  In r (firstn cap records) ->
  f r = Return b -> contains b line ->
  contains (join separator (blocks ++ extra)) line.
Proof.
  intros Hblocks Hin Hr Hline.
  apply for_each_rendered_by in Hblocks.
  destruct (rendered_by_In _ _ _ _ Hblocks Hin) as (b' & Hb' & Hr').
  assert (b' = b) by congruence. subst b'.
  apply (join_contains separator _ b); [| exact Hline].
  apply in_or_app. now left.
Qed.

Lemma described_renders (f : pyval -> outcome string) description_of records :
  (forall d s, description_of d = VStr s ->
     exists block, f (VDict d) = Return block
                   /\ contains block (description_line s)) ->
  Forall (described description_of) records ->
  exists blocks, for_each f records = Return blocks.
Proof.
  intros Hf Hrecords. apply for_each_returns.
  apply Forall_impl with (2 := Hrecords).
  intros r (d & s & -> & Hs).
  destruct (Hf d s Hs) as (block & Hblock & _). now exists block.
Qed.

Lemma listing_line (f : pyval -> outcome string) description_of cap
    none_text empty_text data payload d s text :
  (forall d s, description_of d = VStr s ->
     exists block, f (VDict d) = Return block
                   /\ contains block (description_line s)) ->
  dict_get "data" data = Some payload ->
  In (VDict d) (firstn cap (as_list payload)) ->
  description_of d = VStr s ->
  (match dict_get "data" data with
   | None => Return none_text
   | Some v =>
       if is_empty (as_list v) then Return empty_text
       else result <- for_each f (firstn cap (as_list v)) ;;
            result <- with_total data (len (as_list v)) result ;;
            Return (join separator result)
   end) = Return text ->
  contains text (description_line s).
Proof.
  intros Hf Hdata Hin Hs. rewrite Hdata.
  destruct (as_list payload) as [| r records] eqn:Hrecords;
    [now destruct cap |].
  cbn [is_empty].
  destruct (for_each f (firstn cap (r :: records))) as [blocks |] eqn:Hblocks;
    cbn [bind]; [| discriminate].
  destruct (with_total data (len (r :: records)) blocks) as [result |]
    eqn:Hresult; cbn [bind]; [| discriminate].
  destruct (with_total_shape _ _ _ _ Hresult) as (summary & -> & _).
  intros H. apply Return_inj in H. subst text.
  destruct (Hf d s Hs) as (block & Hblock & Hline).
  exact (rendered_line f cap (r :: records) blocks summary (VDict d) block _
           Hblocks Hin Hblock Hline).
Qed.

Lemma listing_returns (f : pyval -> outcome string) description_of cap
    none_text empty_text data payload :
  (forall d s, description_of d = VStr s ->
     exists block, f (VDict d) = Return block
                   /\ contains block (description_line s)) ->
  dict_get "data" data = Some payload ->
  dict_get "pagination" data = None ->
  Forall (described description_of) (firstn cap (as_list payload)) ->
  exists text,
    (match dict_get "data" data with
     | None => Return none_text
     | Some v =>
         if is_empty (as_list v) then Return empty_text
         else result <- for_each f (firstn cap (as_list v)) ;;
              result <- with_total data (len (as_list v)) result ;;
              Return (join separator result)
     end) = Return text.
Proof.
  intros Hf Hdata Hpagination Hrecords. rewrite Hdata.
  destruct (is_empty (as_list payload)); [now eexists |].
  destruct (described_renders f description_of _ Hf Hrecords)
    as [blocks ->].
  unfold with_total. rewrite Hpagination. cbn [bind]. now eexists.
Qed.

(** C6: a string description is rendered as its first 300 characters followed
    by a marker that is the ellipsis exactly when the string is longer than
    300 characters and is empty otherwise; a string of at most 300 characters
    is rendered unchanged.  The artwork, agent and exhibition renderers write
    that text on the description line of every record whose description is a
    string: the block of the record holds the line, every text that
    [format_artwork_response], [format_agent_response] or
    [format_exhibition_response] returns holds it for each such record among
    those it renders, and the renderer does return a text when the records it
    renders all have a string description and the envelope has no
    pagination. *)
Theorem description_truncated_at_300 (s : string) :
  description_field (VStr s) = Return (spec_truncate s)
  /\ (exists marker,
        description_field (VStr s) = Return (str_prefix 300 s ++ marker)
        /\ (String.length (str_prefix 300 s) <= 300)%nat
        /\ (exists rest, s = str_prefix 300 s ++ rest)
        /\ (marker = "..." <-> (300 < String.length s)%nat)
        /\ (marker = "" <-> (String.length s <= 300)%nat))
  /\ ((String.length s <= 300)%nat -> spec_truncate s = s)
  /\ ((300 < String.length s)%nat ->
      spec_truncate s = str_prefix 300 s ++ "..."
      /\ String.length (str_prefix 300 s) = 300%nat)
  /\ (forall d, artwork_description d = VStr s ->
        exists block, artwork_text (VDict d) = Return block
                      /\ contains block (description_line s))
  /\ (forall d,
        get_or d "description" (VStr "No description available") = VStr s ->
        exists block, agent_text (VDict d) = Return block
                      /\ contains block (description_line s))
  /\ (forall d,
        get_or d "short_description" (VStr "No description available") = VStr s ->
        exists block, exhibition_text (VDict d) = Return block
                      /\ contains block (description_line s))
  /\ (forall data payload d text,
        dict_get "data" data = Some payload ->
        In (VDict d) (firstn 10 (as_list payload)) ->
        (artwork_description d = VStr s ->
         format_artwork_response data = Return text ->
         contains text (description_line s))
        /\ (agent_description d = VStr s ->
            format_agent_response data = Return text ->
            contains text (description_line s))
        /\ (exhibition_description d = VStr s ->
            format_exhibition_response data = Return text ->
            contains text (description_line s)))
  /\ (forall data payload,
        dict_get "data" data = Some payload ->
        dict_get "pagination" data = None ->
        (Forall (described artwork_description) (firstn 10 (as_list payload)) ->
         exists text, format_artwork_response data = Return text)
        /\ (Forall (described agent_description) (firstn 10 (as_list payload)) ->
            exists text, format_agent_response data = Return text)
        /\ (Forall (described exhibition_description)
              (firstn 10 (as_list payload)) ->
            exists text, format_exhibition_response data = Return text)).
Proof.
  split; [apply description_field_str |].
  split.
  { exists (if len_str s >? 300 then "..." else "").
    split; [reflexivity |].
    split; [rewrite str_prefix_length; lia |].
    split; [apply str_prefix_is_prefix |].
    unfold len_str. rewrite Z.gtb_ltb.
    destruct (Z.ltb_spec 300 (Z.of_nat (String.length s)));
      split; split; intros; try lia; try reflexivity; discriminate. }
  split.
  { intros Hshort. unfold spec_truncate.
    now replace (300 <? String.length s)%nat with false
      by (symmetry; apply Nat.ltb_ge; lia). }
  split.
  { intros Hlong. unfold spec_truncate.
    replace (300 <? String.length s)%nat with true
      by (symmetry; apply Nat.ltb_lt; lia).
    split; [reflexivity |]. rewrite str_prefix_length. lia. }
  split; [intros d; apply artwork_text_description |].
  split; [intros d; apply agent_text_description |].
  split; [intros d; apply exhibition_text_description |].
  split.
  - intros data payload d text Hdata Hin. split; [| split].
    + intros Hs. unfold format_artwork_response. rewrite Hdata.
      destruct (as_list payload) as [| r records] eqn:Hrecords;
        [contradiction |].
      cbn [is_empty].
      destruct (for_each artwork_text (firstn 10 (r :: records)))
        as [blocks |] eqn:Hblocks; cbn [bind]; [| discriminate].
      destruct (artwork_text_description d s Hs) as (block & Hblock & Hline).
      destruct (dict_get "pagination" data) as [pagination |].
      * destruct pagination; cbn [py_get bind]; try discriminate.
        intros H. apply Return_inj in H. subst text. unfold list_append.
        exact (rendered_line artwork_text 10 (r :: records) blocks _
                 (VDict d) block _ Hblocks Hin Hblock Hline).
      * cbn [bind]. intros H. apply Return_inj in H. subst text.
        rewrite <- (app_nil_r blocks).
        exact (rendered_line artwork_text 10 (r :: records) blocks []
                 (VDict d) block _ Hblocks Hin Hblock Hline).
    + intros Hs.
      exact (listing_line agent_text agent_description 10
               "No agent data found." "No agents found." data payload d s text
               agent_text_description Hdata Hin Hs).
    + intros Hs.
      exact (listing_line exhibition_text exhibition_description 10
               "No exhibition data found." "No exhibitions found." data payload
               d s text exhibition_text_description Hdata Hin Hs).
  - intros data payload Hdata Hpagination. split; [| split].
    + intros Hrecords. unfold format_artwork_response. rewrite Hdata.
      destruct (is_empty (as_list payload)); [now eexists |].
      destruct (described_renders artwork_text artwork_description _
                  artwork_text_description Hrecords) as [blocks ->].
      rewrite Hpagination. cbn [bind]. now eexists.
    + exact (listing_returns agent_text agent_description 10
               "No agent data found." "No agents found." data payload
               agent_text_description Hdata Hpagination).
    + exact (listing_returns exhibition_text exhibition_description 10
               "No exhibition data found." "No exhibitions found." data payload
               exhibition_text_description Hdata Hpagination).
Qed.

Lemma description_truncated_at_300_witness :
  (300 < String.length long_description)%nat
  /\ exists text,
       format_agent_response
         [("data", VList [VDict [("title", VStr "Claude Monet");
                                 ("description", VStr long_description)]])]
       = Return text
       /\ contains text
            (nl ++ "Description: " ++ str_prefix 300 long_description ++ "..."
                ++ nl)
       /\ String.length (str_prefix 300 long_description) = 300%nat.
Proof.
  assert (Hlong : (300 < String.length long_description)%nat)
    by (vm_compute; lia).
  split; [exact Hlong |].
  destruct (description_truncated_at_300 long_description)
    as (_ & _ & _ & Hcut & _ & _ & _ & Hline & Hreturns).
  destruct (Hcut Hlong) as [Hshown Hkept].
  set (record := [("title", VStr "Claude Monet");
                  ("description", VStr long_description)]).
  set (data := [("data", VList [VDict record])]).
  destruct (Hreturns data (VList [VDict record]) eq_refl eq_refl)
    as (_ & Hagent & _).
  destruct Hagent as [text Htext].
  { repeat constructor. exists record, long_description. now split. }
  exists text. split; [exact Htext |]. split; [| exact Hkept].
  destruct (Hline data (VList [VDict record]) record text eq_refl)
    as (_ & Hcontains & _); [simpl; tauto |].
  specialize (Hcontains eq_refl Htext).
  unfold description_line in Hcontains. now rewrite Hshown in Hcontains.
Defined.
